(** * go-accounting: balances and accounts

    A shallow embedding of the [balance] and [account] packages of
    glynternet/go-accounting, with the properties of their temporal queries,
    construction, validation and equality. *)

From Stdlib Require Import String ZArith List Bool Lia Arith.
From Stdlib Require Import Permutation.
Import ListNotations.
Open Scope string_scope.
Open Scope list_scope.
Open Scope Z_scope.

(** ** Go's [time.Time]

    A [time.Time] is an instant together with a location.  [Before], [After]
    and [Equal] look at the instant only, so two values showing the same
    instant in different locations are [Equal] without being identical.  The
    instant is the wall clock reading; monotonic clock readings are left
    out. *)
Module time.

Record Time : Type := mkTime {
  instant : Z;   (* nanoseconds since the zero Time, January 1 of year 1, UTC *)
  loc : Z        (* the location, as its offset from UTC; 0 is UTC *)
}.

(* time.Time{} *)
Definition zero : Time := mkTime 0 0.

Definition Before (t u : Time) : bool := instant t <? instant u.
Definition After (t u : Time) : bool := instant u <? instant t.
Definition Equal (t u : Time) : bool := instant t =? instant u.

End time.

(** ** Go's [error] values

    The errors the two packages produce or pass on.  [R] is the type of the
    time range a [DateOutOfAccountTimeRange] carries. *)
Inductive error (R : Type) : Type :=
| errorString (s : string)                       (* errors.New(s) *)
| FieldError (descriptions : list string)        (* account.FieldError *)
| DateOutOfAccountTimeRange (BalanceDate : time.Time) (AccountTimeRange : R)
| withMessage (cause : error R) (msg : string).  (* errors.Wrap(cause, msg) *)

Arguments errorString {R} s.
Arguments FieldError {R} descriptions.
Arguments DateOutOfAccountTimeRange {R} BalanceDate AccountTimeRange.
Arguments withMessage {R} cause msg.

(** ** Go strings

    A Go string is a sequence of bytes, here a [string] of [ascii] bytes;
    [len] is [String.length]. *)
Module strings.

Import Ascii.

Definition byte_val (c : ascii) : N := N_of_ascii c.

Definition in_range (c : ascii) (lo hi : N) : bool :=
  ((lo <=? byte_val c) && (byte_val c <=? hi))%N.

(* The width in bytes of the white space rune (unicode.IsSpace) encoded at
   the head of [s], 0 when [s] does not start with one:
   U+0009..U+000D, U+0020, U+0085, U+00A0, U+1680, U+2000..U+200A, U+2028,
   U+2029, U+202F, U+205F, U+3000. *)
Definition space_prefix (s : string) : nat :=
  match s with
  | String c0 r0 =>
      if in_range c0 9 13 || in_range c0 32 32 then 1%nat
      else if in_range c0 194 194 then
        match r0 with
        | String c1 _ =>
            if in_range c1 133 133 || in_range c1 160 160 then 2%nat else 0%nat
        | EmptyString => 0%nat
        end
      else
        match r0 with
        | String c1 (String c2 _) =>
            if in_range c0 225 225 && in_range c1 154 154 && in_range c2 128 128
            then 3%nat
            else if in_range c0 226 226 && in_range c1 128 128 &&
                    (in_range c2 128 138 || in_range c2 168 169 || in_range c2 175 175)
            then 3%nat
            else if in_range c0 226 226 && in_range c1 129 129 && in_range c2 159 159
            then 3%nat
            else if in_range c0 227 227 && in_range c1 128 128 && in_range c2 128 128
            then 3%nat
            else 0%nat
        | _ => 0%nat
        end
  | EmptyString => 0%nat
  end.

Fixpoint drop (n : nat) (s : string) : string :=
  match n, s with
  | S n', String _ r => drop n' r
  | _, _ => s
  end.

(* strings.TrimLeftFunc(s, unicode.IsSpace); [fuel] bounds the runes removed *)
Fixpoint trim_left (fuel : nat) (s : string) : string :=
  match fuel with
  | O => s
  | S fuel' =>
      match space_prefix s with
      | O => s
      | S w => trim_left fuel' (drop (S w) s)
      end
  end.

Fixpoint rev (s : string) : string :=
  match s with
  | EmptyString => EmptyString
  | String c r => rev r ++ String c EmptyString
  end.

(* The same white space runes read from the end of the string, as
   utf8.DecodeLastRuneInString finds them: the reversed string starts with
   the reversed encoding. *)
Definition space_suffix (s : string) : nat :=
  match rev s with
  | String c0 r0 =>
      if in_range c0 9 13 || in_range c0 32 32 then 1%nat
      else
        match r0 with
        | String c1 r1 =>
            if in_range c1 194 194 && (in_range c0 133 133 || in_range c0 160 160)
            then 2%nat
            else
              match r1 with
              | String c2 _ =>
                  match space_prefix (String c2 (String c1 (String c0 EmptyString))) with
                  | 3%nat => 3%nat
                  | _ => 0%nat
                  end
              | EmptyString => 0%nat
              end
        | EmptyString => 0%nat
        end
  | EmptyString => 0%nat
  end.

Fixpoint trim_right (fuel : nat) (s : string) : string :=
  match fuel with
  | O => s
  | S fuel' =>
      match space_suffix s with
      | O => s
      | S w => trim_right fuel' (rev (drop (S w) (rev s)))
      end
  end.

(* strings.TrimSpace *)
Definition TrimSpace (s : string) : string :=
  let l := trim_left (String.length s) s in
  trim_right (String.length l) l.

(* Width of the valid UTF-8 encoding at the head of [s], 0 when the first
   byte does not start one (utf8.DecodeRuneInString gives RuneError, 1). *)
Definition rune_width (s : string) : nat :=
  match s with
  | EmptyString => 0%nat
  | String c0 r0 =>
      if in_range c0 0 127 then 1%nat
      else if in_range c0 194 223 then
        match r0 with
        | String c1 _ => if in_range c1 128 191 then 2%nat else 0%nat
        | _ => 0%nat
        end
      else if in_range c0 224 239 then
        match r0 with
        | String c1 (String c2 _) =>
            let lo := if in_range c0 224 224 then 160%N else 128%N in
            let hi := if in_range c0 237 237 then 159%N else 191%N in
            if in_range c1 lo hi && in_range c2 128 191 then 3%nat else 0%nat
        | _ => 0%nat
        end
      else if in_range c0 240 244 then
        match r0 with
        | String c1 (String c2 (String c3 _)) =>
            let lo := if in_range c0 240 240 then 144%N else 128%N in
            let hi := if in_range c0 244 244 then 143%N else 191%N in
            if in_range c1 lo hi && in_range c2 128 191 && in_range c3 128 191
            then 4%nat else 0%nat
        | _ => 0%nat
        end
      else 0%nat
  end.

(* U+FFFD, the replacement rune, in UTF-8: EF BF BD *)
Definition replacement : string :=
  String (ascii_of_N 239) (String (ascii_of_N 191) (String (ascii_of_N 189) EmptyString)).

(* The bytes of [s] with every byte that does not start a valid encoding
   replaced by U+FFFD; [keep] counts the bytes still belonging to the rune
   being copied. *)
Fixpoint to_valid (keep : nat) (s : string) : string :=
  match s with
  | EmptyString => EmptyString
  | String c r =>
      match keep with
      | S k => String c (to_valid k r)
      | O =>
          match rune_width s with
          | O => replacement ++ to_valid 0 r
          | S w => String c (to_valid w r)
          end
      end
  end.

Definition ToValidUTF8 (s : string) : string := to_valid 0 s.

End strings.

(** ** JSON documents

    What encoding/json writes and reads, as the document the bytes spell.
    Numbers are the integers the two packages write. *)
Module json.

#[warnings="-register-all"]
Inductive Value : Type :=
| JNull
| JBool (b : bool)
| JNumber (n : Z)
| JString (s : string)
| JObject (members : list (string * Value)).


Definition unmarshal_string (v : Value) (old : string) : string + string :=
  match v with
  | JString s => inl s
  | JNull => inl old
  | _ => inr "json: cannot unmarshal into Go value of type string"
  end.

(** A Go int is written as a number and read back when the number fits. *)
Definition minInt : Z := - 2 ^ 63.
Definition maxInt : Z := 2 ^ 63 - 1.
Definition is_int (n : Z) : bool := (minInt <=? n) && (n <=? maxInt).


Definition unmarshal_int (v : Value) (old : Z) : Z + string :=
  match v with
  | JNumber n =>
      if is_int n then inl n
      else inr "json: cannot unmarshal number into Go value of type int"
  | JNull => inl old
  | _ => inr "json: cannot unmarshal into Go value of type int"
  end.

(** The methods MarshalJSON and UnmarshalJSON of [time.Time]: a document or
    the message of an error. *)
Class TimeJSON : Type := {
  Time_MarshalJSON : time.Time -> Value + string;
  Time_UnmarshalJSON : Value -> time.Time + string
}.

(** Reading a member into a field whose type has its own decoding; null
    leaves the field as it is. *)
Definition unmarshal_with {A : Type} (dec : Value -> A + string) (v : Value) (old : A)
  : A + string :=
  match v with
  | JNull => inl old
  | _ => dec v
  end.


End json.

(** ** Package balance *)
Module balance.

Import time.

Definition ErrEmptyBalancesMessage : string := "empty Balances".
Definition ErrNoBalances : string := "no Balances".

Record Balance : Type := mkBalance {
  Date : Time;
  Amount : Z     (* a Go int *)
}.

(* Balance{} *)
Definition zeroBalance : Balance := mkBalance time.zero 0.

Definition Balance_Equal (b ob : Balance) : bool :=
  (Amount b =? Amount ob) && time.Equal (Date b) (Date ob).

Definition Balances : Type := list Balance.

(* bs[i], for an index the loops below keep within range *)
Definition index (bs : Balances) (i : nat) : Balance := nth i bs zeroBalance.

Section Queries.

Context {R : Type} `{json.TimeJSON}.

(* the body of the loop of Earliest *)
Definition Earliest_step (e b : Balance) : Balance :=
  if Before (Date b) (Date e) then b else e.

Definition Earliest (bs : Balances) : Balance * option (error R) :=
  match bs with
  | [] => (zeroBalance, Some (errorString ErrEmptyBalancesMessage))
  | b0 :: _ => (fold_left Earliest_step bs b0, None)
  end.

(* the body of the loop of Latest *)
Definition Latest_step (l b : Balance) : Balance :=
  if negb (After (Date l) (Date b)) then b else l.

Definition Latest (bs : Balances) : Balance * option (error R) :=
  match bs with
  | [] => (zeroBalance, Some (errorString ErrEmptyBalancesMessage))
  | b0 :: _ => (fold_left Latest_step bs b0, None)
  end.

(* The body of the loop of AtTime.  The pointer [at] into the slice is the
   index of the element it points to, [None] while it is nil. *)
Definition AtTime_step (bs : Balances) (t : Time) (at_ : option nat) (i : nat)
  : option nat :=
  if After (Date (index bs i)) t then at_
  else
    let at1 := match at_ with None => Some i | Some _ => at_ end in
    match at1 with
    | Some k => if negb (After (Date (index bs k)) (Date (index bs i)))
                then Some i else at1
    | None => at1
    end.

Definition AtTime_loop (bs : Balances) (t : Time) : option nat :=
  fold_left (AtTime_step bs t) (seq 0 (length bs)) None.

Definition AtTime (bs : Balances) (t : Time) : Balance * option (error R) :=
  match AtTime_loop bs t with
  | None => (zeroBalance, Some (errorString ErrNoBalances))
  | Some k => (index bs k, None)
  end.

(** Arithmetic on a Go int wraps around. *)
Definition wrap_int (z : Z) : Z := (z - json.minInt) mod 2 ^ 64 + json.minInt.

(* the body of the loop of Sum *)
Definition Sum_step (s : Z) (b : Balance) : Z := wrap_int (s + Amount b).

Definition Sum (bs : Balances) : Z := fold_left Sum_step bs 0.

(** The amounts added up as integers, without wrapping. *)
Definition total (bs : Balances) : Z := fold_right Z.add 0 (map Amount bs).

(** What a call gives: the values it returns, or a panic. *)
Inductive outcome (A : Type) : Type :=
| returns (a : A)
| panics.

Arguments returns {A} a.
Arguments panics {A}.

(** An [Option] is a [func(b *Balance) error], or nil: the Balance it leaves
    behind and the error it returns. *)
Definition Option : Type := option (Balance -> Balance * option (error R)).

(* the option Amount(a) *)
Definition AmountOption (a : Z) : Option :=
  Some (fun b => (mkBalance (Date b) a, None)).

(* the loop of New over the options; calling a nil option panics *)
Fixpoint New_loop (options : list Option) (bb : Balance)
  : outcome (Balance * option (error R)) :=
  match options with
  | [] => returns (bb, None)
  | None :: _ => panics
  | Some o :: rest =>
      match o bb with
      | (bb', Some err) => returns (bb', Some err)
      | (bb', None) => New_loop rest bb'
      end
  end.

(** [New] returns a pointer and an error: [None] is the nil pointer. *)
Definition New (date_ : Time) (options : list Option)
  : outcome (option Balance * option (error R)) :=
  match New_loop options (mkBalance date_ 0) with
  | panics => panics
  | returns (_, Some err) => returns (None, Some err)
  | returns (bb, None) => returns (Some bb, None)
  end.

(** The earlier Earliest and Latest start their loops from a far date
    instead of the first Balance. *)
Definition ErrEmptyBalancesMessage_earlier : string := "empty Balances object".

(* time.Date(2000000, 1, 1, 1, 1, 1, 1, time.UTC) *)
Definition year2000000 : Time := mkTime 63113872381261000000001 0.

(* time.Date(0, 1, 1, 1, 1, 1, 1, time.UTC) *)
Definition year0 : Time := mkTime (-31618738999999999) 0.

Definition Earliest_earlier (bs : Balances) : Balance * option (error R) :=
  match bs with
  | [] => (zeroBalance, Some (errorString ErrEmptyBalancesMessage_earlier))
  | _ :: _ => (fold_left Earliest_step bs (mkBalance year2000000 0), None)
  end.

Definition Latest_earlier (bs : Balances) : Balance * option (error R) :=
  match bs with
  | [] => (zeroBalance, Some (errorString ErrEmptyBalancesMessage_earlier))
  | _ :: _ => (fold_left Latest_step bs (mkBalance year0 0), None)
  end.


Fixpoint unmarshal_members (members : list (string * json.Value)) (b : Balance)
  : Balance + string :=
  match members with
  | [] => inl b
  | (key, v) :: rest =>
      if String.eqb key "Date" then
        match json.unmarshal_with json.Time_UnmarshalJSON v (Date b) with
        | inl d => unmarshal_members rest (mkBalance d (Amount b))
        | inr msg => inr msg
        end
      else if String.eqb key "Amount" then
        match json.unmarshal_int v (Amount b) with
        | inl n => unmarshal_members rest (mkBalance (Date b) n)
        | inr msg => inr msg
        end
      else unmarshal_members rest b
  end.


End Queries.

Arguments returns {A} a.
Arguments panics {A}.

(** The date of a Balance as an instant, and the Balances a query at [t]
    looks at. *)
Definition date (b : Balance) : Z := instant (Date b).
Definition qualifies (t : Time) (b : Balance) : Prop := date b <= instant t.

(** [k] is the first position of [bs] holding its minimal date. *)
Definition first_min (bs : Balances) (k : nat) : Prop :=
  (k < length bs)%nat /\
  (forall j, (j < length bs)%nat -> date (index bs k) <= date (index bs j)) /\
  (forall j, (j < k)%nat -> date (index bs k) < date (index bs j)).

(** [k] is the last position of [bs] holding its maximal date. *)
Definition last_max (bs : Balances) (k : nat) : Prop :=
  (k < length bs)%nat /\
  (forall j, (j < length bs)%nat -> date (index bs j) <= date (index bs k)) /\
  (forall j, (k < j < length bs)%nat -> date (index bs j) < date (index bs k)).

(** [k] is the last position of [bs] holding the maximal date among the
    Balances that qualify at [t]. *)
Definition last_max_at (bs : Balances) (t : Time) (k : nat) : Prop :=
  (k < length bs)%nat /\
  qualifies t (index bs k) /\
  (forall j, (j < length bs)%nat -> qualifies t (index bs j) ->
             date (index bs j) <= date (index bs k)) /\
  (forall j, (k < j < length bs)%nat -> qualifies t (index bs j) ->
             date (index bs j) < date (index bs k)).

End balance.

(** ** The collaborators

    The time range of github.com/glynternet/go-time and the currency code of
    github.com/glynternet/go-money are used by package account through the
    operations below and nothing else. *)
Module gtime.

Record NullTime : Type := mkNullTime {
  Valid : bool;
  Time : time.Time
}.

(** [Range] with its methods and the two options [Start] and [End], each a
    [func(r *Range) error]: the range it leaves behind and the error it
    returns. *)
Class RangeOps (Range : Type) : Type := {
  zeroRange : Range;                                  (* Range{}, new(Range) *)
  Range_Start : Range -> NullTime;
  Range_End : Range -> NullTime;
  Range_Contains : Range -> time.Time -> bool;
  Range_Equal : Range -> Range -> bool;
  Start : time.Time -> Range -> Range * option (error Range);
  End : time.Time -> Range -> Range * option (error Range)
}.

(** How a [NullTime] is written to and read from JSON. *)
Class NullTimeJSON : Type := {
  NullTime_MarshalJSON : NullTime -> json.Value + string;
  NullTime_UnmarshalJSON : json.Value -> NullTime + string
}.

(** Two NullTimes agree: both unset, or both set to the same instant. *)
Definition NullTime_same (x y : NullTime) : Prop :=
  Valid x = Valid y /\ (Valid x = true -> time.Equal (Time x) (Time y) = true).


(** The contract of the time range: on a fresh range [Start] sets the start
    and leaves the end unset; [End] sets the end of a range that has a start
    and no end when the new end is not before the start; an accepted [End]
    keeps the start and never leaves an end before it; ranges that agree on
    both ends are Equal. *)
Record RangeLaws {Range : Type} `{RangeOps Range} : Prop := {
  Start_fresh : forall t,
    exists r, Start t zeroRange = (r, None) /\
              Range_Start r = mkNullTime true t /\ Valid (Range_End r) = false;
  End_after_start : forall t r,
    Valid (Range_Start r) = true -> Valid (Range_End r) = false ->
    time.instant (Time (Range_Start r)) <= time.instant t ->
    exists r', End t r = (r', None) /\
               Range_Start r' = Range_Start r /\ Range_End r' = mkNullTime true t;
  End_accepted : forall t r r',
    End t r = (r', None) ->
    Range_Start r' = Range_Start r /\
    (Valid (Range_Start r') = true -> Valid (Range_End r') = true ->
     time.instant (Time (Range_Start r')) <= time.instant (Time (Range_End r')));
  Range_Equal_same : forall r r',
    NullTime_same (Range_Start r) (Range_Start r') ->
    NullTime_same (Range_End r) (Range_End r') ->
    Range_Equal r r' = true
}.

Arguments RangeLaws Range {_}.

End gtime.

Module currency.

(** [NewCode] returns a Code or an error; [Code_MarshalJSON] is how a Code
    is written to JSON. *)
Class CodeOps (Code R : Type) : Type := {
  NewCode : string -> Code + error R;
  Code_MarshalJSON : Code -> json.Value + string
}.


End currency.

(** ** Package account *)
Module account.

Import time gtime currency balance json.

Definition EmptyNameError : string := "Empty name.".

(* FieldError.Equal: the loop over the positions of e *)
Fixpoint FieldError_Equal_loop (e other : list string) (positions : list nat) : bool :=
  match positions with
  | [] => true
  | i :: rest =>
      if negb (String.eqb (nth i e "") (nth i other "")) then false
      else FieldError_Equal_loop e other rest
  end.

Definition FieldError_Equal (e other : list string) : bool :=
  if negb (length e =? length other)%nat then false
  else FieldError_Equal_loop e other (seq 0 (length e)).

(* FieldError.Error: the loop writes each description to the buffer, and a
   space after all but the last *)
Definition FieldError_Error_step (e : list string) (buffer : string)
           (entry : nat * string) : string :=
  let (i, field) := entry in
  let buffer := (buffer ++ field)%string in
  if Z.of_nat i <? Z.of_nat (length e) - 1
  then (buffer ++ " ")%string
  else buffer.

Definition FieldError_Error (e : list string) : string :=
  fold_left (FieldError_Error_step e) (combine (seq 0 (length e)) e) "FieldError: ".

Section Account.

Context {Range Code : Type} `{RangeOps Range} `{CodeOps Code Range}.
Context `{TimeJSON} `{NullTimeJSON}.

Record Account : Type := mkAccount {
  name : string;
  timeRange : Range;
  currencyCode : Code
}.

Definition Name (a : Account) : string := name a.
Definition Opened (a : Account) : time.Time := Time (Range_Start (timeRange a)).
Definition Closed (a : Account) : NullTime := Range_End (timeRange a).
Definition TimeRange (a : Account) : Range := timeRange a.
Definition IsOpen (a : Account) : bool := negb (Valid (Range_End (timeRange a))).
Definition CurrencyCode (a : Account) : Code := currencyCode a.

Definition validate (a : Account) : option (error Range) :=
  let fieldErrorDescriptions : list string := [] in
  let fieldErrorDescriptions :=
    if (String.length (name a) =? 0)%nat
    then fieldErrorDescriptions ++ [EmptyNameError]
    else fieldErrorDescriptions in
  if (0 <? length fieldErrorDescriptions)%nat
  then Some (FieldError fieldErrorDescriptions)
  else None.

Definition ValidateBalance (a : Account) (b : Balance) : option (error Range) :=
  match validate a with
  | Some err => Some err
  | None =>
      if negb (Range_Contains (timeRange a) (Date b)) &&
         (negb (Valid (Closed a)) || negb (time.Equal (Time (Closed a)) (Date b)))
      then Some (DateOutOfAccountTimeRange (Date b) (timeRange a))
      else None
  end.

Definition Equal (a b : Account) : bool :=
  if negb (String.eqb (name a) (Name b)) then false
  else if negb (Range_Equal (timeRange a) (TimeRange b)) then false
  else true.

(** An [Option] is a [func(a *Account) error], or nil: the Account it leaves
    behind and the error it returns. *)
Definition Option : Type := option (Account -> Account * option (error Range)).

Definition CloseTime (t : time.Time) : Option :=
  Some (fun a =>
          let (tr, err) := End t (timeRange a) in
          (mkAccount (name a) tr (currencyCode a), err)).

(* the loop of New over the options *)
Fixpoint applyOptions (os : list Option) (a : Account)
  : Account * option (error Range) :=
  match os with
  | [] => (a, None)
  | None :: rest => applyOptions rest a
  | Some o :: rest =>
      match o a with
      | (a', Some err) => (a', Some err)
      | (a', None) => applyOptions rest a'
      end
  end.

(** [New] returns a pointer and an error: [None] is the nil pointer. *)
Definition New (name_ : string) (code : Code) (opened : time.Time) (os : list Option)
  : option Account * option (error Range) :=
  let trimmed := strings.TrimSpace name_ in
  if (String.length trimmed =? 0)%nat then (None, Some (errorString EmptyNameError))
  else
    match Start opened zeroRange with
    | (_, Some err) => (None, Some err)
    | (tr, None) =>
        match applyOptions os (mkAccount trimmed tr code) with
        | (_, Some err) => (None, Some err)
        | (a, None) =>
            match validate a with
            | Some err => (None, Some err)
            | None => (Some a, None)
            end
        end
    end.


(* the auxiliary struct of UnmarshalJSON *)
Record Aux : Type := mkAux {
  aux_Name : string;
  aux_Opened : time.Time;
  aux_Closed : NullTime;
  aux_Currency : string
}.

Definition zeroAux : Aux := mkAux "" time.zero (mkNullTime false time.zero) "".

(* json.Unmarshal into the auxiliary struct: the members of the object are
   read in order into the fields they name, others are skipped.  Names are
   compared as they are written; encoding/json also accepts another letter
   case. *)
Fixpoint unmarshal_members (members : list (string * Value)) (aux : Aux) : Aux + string :=
  match members with
  | [] => inl aux
  | (key, v) :: rest =>
      if String.eqb key "Name" then
        match unmarshal_string v (aux_Name aux) with
        | inl x => unmarshal_members rest
                     (mkAux x (aux_Opened aux) (aux_Closed aux) (aux_Currency aux))
        | inr msg => inr msg
        end
      else if String.eqb key "Opened" then
        match unmarshal_with Time_UnmarshalJSON v (aux_Opened aux) with
        | inl x => unmarshal_members rest
                     (mkAux (aux_Name aux) x (aux_Closed aux) (aux_Currency aux))
        | inr msg => inr msg
        end
      else if String.eqb key "Closed" then
        match unmarshal_with NullTime_UnmarshalJSON v (aux_Closed aux) with
        | inl x => unmarshal_members rest
                     (mkAux (aux_Name aux) (aux_Opened aux) x (aux_Currency aux))
        | inr msg => inr msg
        end
      else if String.eqb key "Currency" then
        match unmarshal_string v (aux_Currency aux) with
        | inl x => unmarshal_members rest
                     (mkAux (aux_Name aux) (aux_Opened aux) (aux_Closed aux) x)
        | inr msg => inr msg
        end
      else unmarshal_members rest aux
  end.

Definition unmarshal_aux (data : Value) (aux : Aux) : Aux + string :=
  match data with
  | JObject members => unmarshal_members members aux
  | JNull => inl aux
  | _ => inr "json: cannot unmarshal into Go value of type struct"
  end.

(** [UnmarshalJSON] has a pointer receiver: the Account it leaves behind and
    the error it returns. *)
Definition UnmarshalJSON (a : Account) (data : Value) : Account * option (error Range) :=
  match unmarshal_aux data zeroAux with
  | inr msg => (a, Some (withMessage (errorString msg) "unmarshalling data to auxilliary"))
  | inl aux =>
      let a := mkAccount (aux_Name aux) (timeRange a) (currencyCode a) in
      match NewCode (aux_Currency aux) with
      | inr err =>
          (a, Some (withMessage err ("creating new currency for " ++ aux_Currency aux)))
      | inl c =>
          let a := mkAccount (name a) (timeRange a) c in
          match Start (aux_Opened aux) zeroRange with
          | (_, Some err) => (a, Some (withMessage err "applying Account start time"))
          | (tr, None) =>
              if Valid (aux_Closed aux) then
                match End (Time (aux_Closed aux)) tr with
                | (_, Some err) => (a, Some (withMessage err "applying Account end time"))
                | (tr', None) =>
                    let a := mkAccount (name a) tr' (currencyCode a) in
                    (a, validate a)
                end
              else
                let a := mkAccount (name a) tr (currencyCode a) in
                (a, validate a)
          end
      end
  end.

(** The earlier [validate] trims the name before it looks at its length,
    and the earlier [New] keeps the name as given and returns the Account
    together with what [validate] says. *)
Definition validate_earlier (a : Account) : option (error Range) :=
  let fieldErrorDescriptions : list string := [] in
  let fieldErrorDescriptions :=
    if (String.length (strings.TrimSpace (name a)) =? 0)%nat
    then fieldErrorDescriptions ++ [EmptyNameError]
    else fieldErrorDescriptions in
  if (0 <? length fieldErrorDescriptions)%nat
  then Some (FieldError fieldErrorDescriptions)
  else None.

Definition New_earlier (name_ : string) (code : Code) (opened : time.Time)
           (os : list Option) : option Account * option (error Range) :=
  match Start opened zeroRange with
  | (_, Some err) => (None, Some err)
  | (tr, None) =>
      match applyOptions os (mkAccount name_ tr code) with
      | (_, Some err) => (None, Some err)
      | (a, None) => (Some a, validate_earlier a)
      end
  end.

(** The function [UnmarshalJSON] of the package: json.Unmarshal calls the
    method on a zero Account, whose Code is [zeroCode], and the Account is
    returned only without an error. *)
Definition UnmarshalJSON_data (zeroCode : Code) (data : Value)
  : option Account * option (error Range) :=
  match UnmarshalJSON (mkAccount "" zeroRange zeroCode) data with
  | (_, Some err) => (None, Some err)
  | (a, None) => (Some a, None)
  end.

(** What construction guarantees of an Account: a name that is not empty,
    a start instant, and no close instant before the start. *)
Definition constructed (a : Account) : Prop :=
  validate a = None /\
  Valid (Range_Start (timeRange a)) = true /\
  (Valid (Closed a) = true ->
   time.instant (Opened a) <= time.instant (Time (Closed a))).

End Account.

Arguments Account Range Code : clear implicits.
Arguments Option Range Code : clear implicits.

End account.

(** ** A model of the collaborators

    One implementation of the collaborators' interfaces, to run the
    definitions above on concrete Accounts and Balances. *)
Module model.

Import time gtime currency json.

(** Modelled from the spec: the time range collaborator, "a start instant
    and an optional end instant", "half-open on the right when unclosed",
    whose setters "each can fail (e.g., end-before-start)". *)
Record Range : Type := mkRange {
  start : NullTime;
  end_ : NullTime
}.

Definition EndBeforeStart : string := "end time is before start time".

Definition Range_validate (r : Range) : option (error Range) :=
  if Valid (start r) && Valid (end_ r) && Before (Time (end_ r)) (Time (start r))
  then Some (errorString EndBeforeStart)
  else None.

Definition set_start (t : time.Time) (r : Range) : Range * option (error Range) :=
  let r' := mkRange (mkNullTime true t) (end_ r) in
  match Range_validate r' with
  | Some err => (r, Some err)
  | None => (r', None)
  end.

Definition set_end (t : time.Time) (r : Range) : Range * option (error Range) :=
  let r' := mkRange (start r) (mkNullTime true t) in
  match Range_validate r' with
  | Some err => (r, Some err)
  | None => (r', None)
  end.

Definition contains (r : Range) (t : time.Time) : bool :=
  negb (Valid (start r) && After (Time (start r)) t) &&
  negb (Valid (end_ r) && negb (After (Time (end_ r)) t)).

Definition NullTime_Equal (x y : NullTime) : bool :=
  Bool.eqb (Valid x) (Valid y) &&
  (negb (Valid x) || time.Equal (Time x) (Time y)).

Definition equal (r r' : Range) : bool :=
  NullTime_Equal (start r) (start r') && NullTime_Equal (end_ r) (end_ r').

#[export] Instance Range_ops : RangeOps Range := {
  zeroRange := mkRange (mkNullTime false time.zero) (mkNullTime false time.zero);
  Range_Start := start;
  Range_End := end_;
  Range_Contains := contains;
  Range_Equal := equal;
  Start := set_start;
  End := set_end
}.

(** Modelled from the spec: the currency code collaborator, whose "validated
    codes are comparable for equality and serialize to/from a stable string
    token": a Code is its token, three bytes long. *)
Definition Code : Type := string.

#[export] Instance Code_ops : CodeOps Code Range := {
  NewCode := fun s =>
    if (String.length s =? 3)%nat then inl s
    else inr (errorString "currency code must be 3 characters");
  Code_MarshalJSON := fun c => inl (JString c)
}.

(** Modelled from the spec: the JSON form of an instant, which "must
    round-trip" the instant.  In place of the RFC 3339 text it keeps the
    instant and the offset as two numbers. *)
#[export] Instance Time_json : TimeJSON := {
  Time_MarshalJSON := fun t =>
    inl (JObject [("instant", JNumber (instant t)); ("offset", JNumber (loc t))]);
  Time_UnmarshalJSON := fun v =>
    match v with
    | JObject [(_, JNumber i); (_, JNumber o)] => inl (mkTime i o)
    | _ => inr "parsing time"
    end
}.

(** Modelled from the spec: the JSON form of "end instant + presence flag". *)
#[export] Instance NullTime_json : NullTimeJSON := {
  NullTime_MarshalJSON := fun n =>
    match Time_MarshalJSON (Time n) with
    | inl v => inl (JObject [("Time", v); ("Valid", JBool (Valid n))])
    | inr msg => inr msg
    end;
  NullTime_UnmarshalJSON := fun v =>
    match v with
    | JObject [(_, tv); (_, JBool valid)] =>
        match Time_UnmarshalJSON tv with
        | inl t => inl (mkNullTime valid t)
        | inr msg => inr msg
        end
    | _ => inr "parsing null time"
    end
}.

Definition Account : Type := account.Account Range Code.

(* Account{} *)
Definition zeroAccount : Account := account.mkAccount "" zeroRange "".

(* time.Date(year, 1, 1, 1, 1, 1, 1, time.UTC), the dates of the tests *)
Definition y1000 : time.Time := mkTime 31525376461000000001 0.
Definition y2000 : time.Time := mkTime 63082285261000000001 0.
Definition y2001 : time.Time := mkTime 63113907661000000001 0.
Definition y2002 : time.Time := mkTime 63145443661000000001 0.
Definition y2003 : time.Time := mkTime 63176979661000000001 0.
Definition y2004 : time.Time := mkTime 63208515661000000001 0.
Definition y3000 : time.Time := mkTime 94639280461000000001 0.

(* the Balances, Accounts and options of the tests *)
Definition b10 : balance.Balance := balance.mkBalance y2000 10.
Definition b20 : balance.Balance := balance.mkBalance y2000 20.
Definition various : balance.Balances :=
  [balance.mkBalance y2001 1; balance.mkBalance y2001 10;
   balance.mkBalance y2000 8237; balance.mkBalance y2003 489].

Definition EUR : Code := "EUR".

Definition openAccount : Account :=
  account.mkAccount "Test Account"
    (mkRange (mkNullTime true y2000) (mkNullTime false time.zero)) EUR.
Definition closedAccount : Account :=
  account.mkAccount "Test Account"
    (mkRange (mkNullTime true y2000) (mkNullTime true y2002)) EUR.

Definition closedAccount_named (n : string) : Account :=
  account.mkAccount n (mkRange (mkNullTime true y2000) (mkNullTime true y2002)) EUR.

Definition errorFn : account.Option Range Code :=
  Some (fun a => (a, Some (errorString "TEST ERROR"))).

(* the same instant as y2000, shown one hour east of UTC *)
Definition y2000_east : time.Time := mkTime 63082285261000000001 3600.

Definition failing : @balance.Option Range :=
  Some (fun b => (b, Some (errorString "TEST ERROR"))).

(* what MarshalJSON writes for closedAccount *)
Definition closedAccount_JSON : Value :=
  JObject [("Name", JString "Test Account");
           ("Opened", JObject [("instant", JNumber 63082285261000000001);
                               ("offset", JNumber 0)]);
           ("Closed", JObject [("Time", JObject [("instant", JNumber 63145443661000000001);
                                                 ("offset", JNumber 0)]);
                               ("Valid", JBool true)]);
           ("Currency", JString "EUR")].



End model.

(** * Properties *)

Module time_facts.

Import time.

Lemma Before_lt t u : Before t u = true <-> instant t < instant u.
Proof. unfold Before. apply Z.ltb_lt. Qed.

Lemma After_gt t u : After t u = true <-> instant u < instant t.
Proof. unfold After. apply Z.ltb_lt. Qed.

Lemma After_false t u : After t u = false <-> instant t <= instant u.
Proof. unfold After. rewrite Z.ltb_ge. reflexivity. Qed.

Lemma Before_false t u : Before t u = false <-> instant u <= instant t.
Proof. unfold Before. rewrite Z.ltb_ge. reflexivity. Qed.

Lemma Equal_eq t u : Equal t u = true <-> instant t = instant u.
Proof. unfold Equal. apply Z.eqb_eq. Qed.

Lemma Equal_refl t : Equal t t = true.
Proof. apply Equal_eq. reflexivity. Qed.

End time_facts.

Module strings_facts.

Import Ascii strings.

Example TrimSpace_both_ends : TrimSpace "  TEST ACCOUNT  " = "TEST ACCOUNT".
Proof. reflexivity. Qed.

Example TrimSpace_only_spaces : TrimSpace "   " = "".
Proof. reflexivity. Qed.

(* U+00A0 and U+2003 are white space too *)
Example TrimSpace_unicode_spaces :
  TrimSpace (String (ascii_of_N 194) (String (ascii_of_N 160)
              ("a" ++ String (ascii_of_N 226) (String (ascii_of_N 128)
                                (String (ascii_of_N 131) EmptyString)))%string))
  = "a".
Proof. reflexivity. Qed.

(* the byte FF is no white space, and no valid UTF-8 *)
Example TrimSpace_invalid_byte :
  TrimSpace (String (ascii_of_N 255) EmptyString) = String (ascii_of_N 255) EmptyString.
Proof. reflexivity. Qed.

Example ToValidUTF8_invalid_byte :
  ToValidUTF8 ("a" ++ String (ascii_of_N 255) "b")%string
  = ("a" ++ replacement ++ "b")%string.
Proof. reflexivity. Qed.

(** ASCII text is valid UTF-8. *)
Lemma ToValidUTF8_ascii (s : string) :
  (forall c, In c (list_ascii_of_string s) -> (byte_val c < 128)%N) ->
  ToValidUTF8 s = s.
Proof.
  unfold ToValidUTF8. induction s as [| c r IH]; intros Hascii; [reflexivity |].
  assert (Hc : (byte_val c < 128)%N) by (apply Hascii; now left).
  assert (Hw : rune_width (String c r) = 1%nat).
  { unfold rune_width, in_range.
    replace ((0 <=? byte_val c)%N) with true by (symmetry; apply N.leb_le; lia).
    replace ((byte_val c <=? 127)%N) with true by (symmetry; apply N.leb_le; lia).
    reflexivity. }
  cbn [to_valid]. rewrite Hw. cbn [to_valid]. f_equal.
  apply IH. intros c' Hc'. apply Hascii. now right.
Qed.

End strings_facts.

Module balance_facts.

Import time time_facts balance.

(** *** Reading the slice by position *)

Lemma index_app_l (pre rest : Balances) (j : nat) :
  (j < length pre)%nat -> index (pre ++ rest) j = index pre j.
Proof. intros Hj. unfold index. now apply app_nth1. Qed.

Lemma index_app_last (pre : Balances) (b : Balance) :
  index (pre ++ [b]) (length pre) = b.
Proof. unfold index. now rewrite nth_middle. Qed.

Lemma index_In (bs : Balances) (k : nat) :
  (k < length bs)%nat -> In (index bs k) bs.
Proof. intros Hk. unfold index. now apply nth_In. Qed.

Lemma In_index (bs : Balances) (b : Balance) :
  In b bs -> exists j, (j < length bs)%nat /\ index bs j = b.
Proof. intros Hb. unfold index. now apply In_nth. Qed.

Lemma snoc_cases (pre : Balances) (b : Balance) (j : nat) :
  (j < length (pre ++ [b]))%nat ->
  ((j < length pre)%nat /\ index (pre ++ [b]) j = index pre j) \/
  (j = length pre /\ index (pre ++ [b]) j = b).
Proof.
  rewrite length_app. simpl. intros Hj.
  destruct (Nat.eq_dec j (length pre)) as [-> | Hne].
  - right. split; [reflexivity | apply index_app_last].
  - left. assert (Hlt : (j < length pre)%nat) by lia.
    split; [exact Hlt | now apply index_app_l].
Qed.

(** *** The loop of Earliest keeps the first minimum of what it has seen *)

Lemma Earliest_step_snoc (pre : Balances) (k : nat) (b : Balance) :
  first_min pre k ->
  exists k', Earliest_step (index pre k) b = index (pre ++ [b]) k' /\
             first_min (pre ++ [b]) k'.
Proof.
  intros (Hk & Hmin & Hfirst). unfold Earliest_step.
  destruct (Before (Date b) (Date (index pre k))) eqn:Hcmp.
  - apply Before_lt in Hcmp. exists (length pre).
    split; [now rewrite index_app_last |].
    unfold first_min. rewrite index_app_last. repeat split.
    + rewrite length_app. simpl. lia.
    + intros j Hj. destruct (snoc_cases pre b j Hj) as [[Hlt ->] | [_ ->]].
      * specialize (Hmin j Hlt). unfold date in *. lia.
      * lia.
    + intros j Hj. rewrite (index_app_l pre [b] j Hj).
      specialize (Hmin j Hj). unfold date in *. lia.
  - apply Before_false in Hcmp. exists k.
    split; [now rewrite index_app_l |].
    unfold first_min. rewrite (index_app_l pre [b] k Hk). repeat split.
    + rewrite length_app. simpl. lia.
    + intros j Hj. destruct (snoc_cases pre b j Hj) as [[Hlt ->] | [_ ->]].
      * now apply Hmin.
      * exact Hcmp.
    + intros j Hj. rewrite index_app_l by lia. now apply Hfirst.
Qed.

Lemma Earliest_loop (rest : Balances) :
  forall (pre : Balances) (k : nat),
    first_min pre k ->
    exists k', fold_left Earliest_step rest (index pre k) = index (pre ++ rest) k' /\
               first_min (pre ++ rest) k'.
Proof.
  induction rest as [| b rest IH]; intros pre k Hk.
  - exists k. rewrite app_nil_r. now split.
  - simpl fold_left.
    destruct (Earliest_step_snoc pre k b Hk) as (k1 & -> & Hk1).
    destruct (IH (pre ++ [b]) k1 Hk1) as (k' & Hfold & Hk').
    rewrite <- app_assoc in Hfold, Hk'. simpl in Hfold, Hk'.
    now exists k'.
Qed.

Lemma first_min_singleton (b : Balance) : first_min [b] 0.
Proof.
  unfold first_min. simpl. repeat split.
  - lia.
  - intros j Hj. assert (j = 0%nat) as -> by lia. lia.
  - intros j Hj. lia.
Qed.

Lemma Earliest_index {R : Type} (b0 : Balance) (tl : Balances) :
  exists k, @Earliest R (b0 :: tl) = (index (b0 :: tl) k, None) /\
            first_min (b0 :: tl) k.
Proof.
  unfold Earliest. simpl fold_left.
  assert (Hself : Earliest_step b0 b0 = index [b0] 0).
  { unfold Earliest_step, Before. rewrite Z.ltb_irrefl. reflexivity. }
  rewrite Hself.
  destruct (Earliest_loop tl [b0] 0%nat (first_min_singleton b0)) as (k & Hfold & Hk).
  exists k. simpl in Hfold, Hk. now rewrite Hfold.
Qed.

(** *** The loop of Latest keeps the last maximum of what it has seen *)

Lemma Latest_step_snoc (pre : Balances) (k : nat) (b : Balance) :
  last_max pre k ->
  exists k', Latest_step (index pre k) b = index (pre ++ [b]) k' /\
             last_max (pre ++ [b]) k'.
Proof.
  intros (Hk & Hmax & Hlast). unfold Latest_step.
  destruct (After (Date (index pre k)) (Date b)) eqn:Hcmp; simpl.
  - apply After_gt in Hcmp. exists k.
    split; [now rewrite index_app_l |].
    unfold last_max. rewrite (index_app_l pre [b] k Hk). repeat split.
    + rewrite length_app. simpl. lia.
    + intros j Hj. destruct (snoc_cases pre b j Hj) as [[Hlt ->] | [_ ->]].
      * now apply Hmax.
      * unfold date. lia.
    + intros j [Hkj Hj]. destruct (snoc_cases pre b j Hj) as [[Hlt ->] | [_ ->]].
      * apply Hlast. lia.
      * exact Hcmp.
  - apply After_false in Hcmp. exists (length pre).
    split; [now rewrite index_app_last |].
    unfold last_max. rewrite index_app_last. repeat split.
    + rewrite length_app. simpl. lia.
    + intros j Hj. destruct (snoc_cases pre b j Hj) as [[Hlt ->] | [_ ->]].
      * specialize (Hmax j Hlt). unfold date in *. lia.
      * lia.
    + intros j [Hkj Hj]. rewrite length_app in Hj. simpl in Hj. lia.
Qed.

Lemma Latest_loop (rest : Balances) :
  forall (pre : Balances) (k : nat),
    last_max pre k ->
    exists k', fold_left Latest_step rest (index pre k) = index (pre ++ rest) k' /\
               last_max (pre ++ rest) k'.
Proof.
  induction rest as [| b rest IH]; intros pre k Hk.
  - exists k. rewrite app_nil_r. now split.
  - simpl fold_left.
    destruct (Latest_step_snoc pre k b Hk) as (k1 & -> & Hk1).
    destruct (IH (pre ++ [b]) k1 Hk1) as (k' & Hfold & Hk').
    rewrite <- app_assoc in Hfold, Hk'. simpl in Hfold, Hk'.
    now exists k'.
Qed.

Lemma last_max_singleton (b : Balance) : last_max [b] 0.
Proof.
  unfold last_max. simpl. repeat split.
  - lia.
  - intros j Hj. assert (j = 0%nat) as -> by lia. lia.
  - intros j Hj. lia.
Qed.

Lemma Latest_index {R : Type} (b0 : Balance) (tl : Balances) :
  exists k, @Latest R (b0 :: tl) = (index (b0 :: tl) k, None) /\
            last_max (b0 :: tl) k.
Proof.
  unfold Latest. simpl fold_left.
  assert (Hself : Latest_step b0 b0 = index [b0] 0).
  { unfold Latest_step, After. rewrite Z.ltb_irrefl. reflexivity. }
  rewrite Hself.
  destruct (Latest_loop tl [b0] 0%nat (last_max_singleton b0)) as (k & Hfold & Hk).
  exists k. simpl in Hfold, Hk. now rewrite Hfold.
Qed.

(** *** The loop of AtTime *)

(** What the pointer [at] holds once the positions below [n] are done. *)
Definition AtTime_inv (bs : Balances) (t : Time) (n : nat) (at_ : option nat) : Prop :=
  match at_ with
  | None => forall j, (j < n)%nat -> ~ qualifies t (index bs j)
  | Some k =>
      (k < n)%nat /\
      qualifies t (index bs k) /\
      (forall j, (j < n)%nat -> qualifies t (index bs j) ->
                 date (index bs j) <= date (index bs k)) /\
      (forall j, (k < j < n)%nat -> qualifies t (index bs j) ->
                 date (index bs j) < date (index bs k))
  end.

Lemma AtTime_step_inv (bs : Balances) (t : Time) (n : nat) (at_ : option nat) :
  AtTime_inv bs t n at_ -> AtTime_inv bs t (S n) (AtTime_step bs t at_ n).
Proof.
  intros Hinv. unfold AtTime_step.
  destruct (After (Date (index bs n)) t) eqn:Hskip.
  - (* continue: position n does not qualify *)
    apply After_gt in Hskip.
    assert (Hn : ~ qualifies t (index bs n)) by (unfold qualifies, date; lia).
    destruct at_ as [k |]; simpl in *.
    + destruct Hinv as (Hk & Hq & Hmax & Hlast). repeat split.
      * lia.
      * exact Hq.
      * intros j Hj Hqj. destruct (Nat.eq_dec j n) as [-> | Hne]; [contradiction |].
        apply Hmax; [lia | exact Hqj].
      * intros j Hj Hqj. destruct (Nat.eq_dec j n) as [-> | Hne]; [contradiction |].
        apply Hlast; [lia | exact Hqj].
    + intros j Hj. destruct (Nat.eq_dec j n) as [-> | Hne]; [exact Hn |].
      apply Hinv. lia.
  - apply After_false in Hskip.
    assert (Hn : qualifies t (index bs n)) by exact Hskip.
    destruct at_ as [k |]; simpl in *.
    + destruct Hinv as (Hk & Hq & Hmax & Hlast).
      destruct (After (Date (index bs k)) (Date (index bs n))) eqn:Hcmp; simpl.
      * apply After_gt in Hcmp. repeat split.
        -- lia.
        -- exact Hq.
        -- intros j Hj Hqj. destruct (Nat.eq_dec j n) as [-> | Hne].
           ++ unfold date. lia.
           ++ apply Hmax; [lia | exact Hqj].
        -- intros j Hj Hqj. destruct (Nat.eq_dec j n) as [-> | Hne].
           ++ exact Hcmp.
           ++ apply Hlast; [lia | exact Hqj].
      * apply After_false in Hcmp. repeat split.
        -- lia.
        -- exact Hn.
        -- intros j Hj Hqj. destruct (Nat.eq_dec j n) as [-> | Hne]; [lia |].
           assert (Hjk : date (index bs j) <= date (index bs k))
             by (apply Hmax; [lia | exact Hqj]).
           unfold date in *. lia.
        -- intros j Hj Hqj. lia.
    + unfold After. rewrite Z.ltb_irrefl. simpl. repeat split.
      * lia.
      * exact Hn.
      * intros j Hj Hqj. destruct (Nat.eq_dec j n) as [-> | Hne]; [lia |].
        exfalso. apply (Hinv j); [lia | exact Hqj].
      * intros j Hj Hqj. lia.
Qed.

Lemma AtTime_prefix_inv (bs : Balances) (t : Time) (n : nat) :
  AtTime_inv bs t n (fold_left (AtTime_step bs t) (seq 0 n) None).
Proof.
  induction n as [| n IH].
  - simpl. intros j Hj. lia.
  - rewrite seq_S, fold_left_app. simpl. now apply AtTime_step_inv.
Qed.

Lemma AtTime_loop_inv (bs : Balances) (t : Time) :
  AtTime_inv bs t (length bs) (AtTime_loop bs t).
Proof. apply AtTime_prefix_inv. Qed.

Lemma AtTime_found {R : Type} (bs : Balances) (t : Time) :
  (exists b, In b bs /\ qualifies t b) ->
  exists k, @AtTime R bs t = (index bs k, None) /\ last_max_at bs t k.
Proof.
  intros (b & Hb & Hq). pose proof (AtTime_loop_inv bs t) as Hinv.
  unfold AtTime. destruct (AtTime_loop bs t) as [k |]; simpl in Hinv.
  - exists k. split; [reflexivity | exact Hinv].
  - exfalso. destruct (In_index bs b Hb) as (j & Hj & Hjb).
    apply (Hinv j Hj). now rewrite Hjb.
Qed.

Lemma AtTime_none {R : Type} (bs : Balances) (t : Time) :
  (forall b, In b bs -> ~ qualifies t b) ->
  @AtTime R bs t = (zeroBalance, Some (errorString ErrNoBalances)).
Proof.
  intros Hnone. pose proof (AtTime_loop_inv bs t) as Hinv.
  unfold AtTime. destruct (AtTime_loop bs t) as [k |]; simpl in Hinv.
  - exfalso. destruct Hinv as (Hk & Hq & _).
    apply (Hnone (index bs k)); [now apply index_In | exact Hq].
  - reflexivity.
Qed.

(** ** Properties of the queries *)

(** C1. [AtTime bs t] looks at exactly the Balances dated at or before [t]:
    when there is one, it returns without error the Balance at the last
    position holding the maximal date among them; when there is none (as for
    the empty collection), it returns the zero Balance with the
    [ErrNoBalances] error. *)
Theorem AtTime_latest_at_or_before {R : Type} (bs : Balances) (t : Time) :
  ((exists b, In b bs /\ qualifies t b) ->
   exists k, @AtTime R bs t = (index bs k, None) /\ last_max_at bs t k) /\
  ((forall b, In b bs -> ~ qualifies t b) ->
   @AtTime R bs t = (zeroBalance, Some (errorString ErrNoBalances))) /\
  @AtTime R [] t = (zeroBalance, Some (errorString ErrNoBalances)).
Proof.
  split; [apply AtTime_found |]. split; [apply AtTime_none | reflexivity].
Qed.

(** C2. [Earliest] of a non-empty collection succeeds with the Balance at the
    first position holding the minimal date; of the empty collection it
    fails with the [ErrEmptyBalancesMessage] error. *)
Theorem Earliest_first_minimal {R : Type} (bs : Balances) :
  (bs <> [] ->
   exists k, @Earliest R bs = (index bs k, None) /\ first_min bs k) /\
  @Earliest R [] = (zeroBalance, Some (errorString ErrEmptyBalancesMessage)).
Proof.
  split; [| reflexivity].
  intros Hne. destruct bs as [| b0 tl]; [contradiction | apply Earliest_index].
Qed.

(** C3. [Latest] of a non-empty collection succeeds with the Balance at the
    last position holding the maximal date; of the empty collection it fails
    with the [ErrEmptyBalancesMessage] error. *)
Theorem Latest_last_maximal {R : Type} (bs : Balances) :
  (bs <> [] ->
   exists k, @Latest R bs = (index bs k, None) /\ last_max bs k) /\
  @Latest R [] = (zeroBalance, Some (errorString ErrEmptyBalancesMessage)).
Proof.
  split; [| reflexivity].
  intros Hne. destruct bs as [| b0 tl]; [contradiction | apply Latest_index].
Qed.

(** C10. The Balance [Earliest] and [Latest] return for a non-empty
    collection is an element of it, and a Balance [AtTime] returns without
    error is an element of the collection dated at or before the instant
    asked for. *)
Theorem queries_return_members {R : Type} (bs : Balances) (t : Time) :
  (bs <> [] -> In (fst (@Earliest R bs)) bs /\ In (fst (@Latest R bs)) bs) /\
  (forall b, @AtTime R bs t = (b, None) -> In b bs /\ qualifies t b).
Proof.
  split.
  - intros Hne. destruct bs as [| b0 tl]; [contradiction |].
    destruct (@Earliest_index R b0 tl) as (k & -> & Hk & _).
    destruct (@Latest_index R b0 tl) as (l & -> & Hl & _).
    split; now apply index_In.
  - intros b Hat. pose proof (AtTime_loop_inv bs t) as Hinv.
    unfold AtTime in Hat. destruct (AtTime_loop bs t) as [k |]; simpl in Hinv.
    + injection Hat as <-. destruct Hinv as (Hk & Hq & _).
      split; [now apply index_In | exact Hq].
    + discriminate.
Qed.

(** *** JSON *)


End balance_facts.

Module account_facts.

Import time time_facts gtime currency balance json account.

Section Account.

Context {Range Code : Type} `{RangeOps Range} `{CodeOps Code Range}.
Context `{TimeJSON} `{NullTimeJSON}.

(** *** Validation *)



(** C4. [ValidateBalance] returns the error of the Account's own validation
    when there is one, whatever the Balance; otherwise it returns no error
    exactly when the time range contains the Balance's date or the Account
    has a close instant equal to that date, and in every other case the
    [DateOutOfAccountTimeRange] error carrying the Balance's date and the
    Account's time range. *)
Theorem ValidateBalance_account_then_date (a : Account Range Code) (b : Balance) :
  (forall err, validate a = Some err -> ValidateBalance a b = Some err) /\
  (validate a = None ->
   (ValidateBalance a b = None <->
    Range_Contains (timeRange a) (Date b) = true \/
    (Valid (Closed a) = true /\ time.Equal (Time (Closed a)) (Date b) = true)) /\
   (ValidateBalance a b <> None ->
    ValidateBalance a b = Some (DateOutOfAccountTimeRange (Date b) (timeRange a)))).
Proof.
  unfold ValidateBalance. split.
  - intros err ->. reflexivity.
  - intros ->.
    destruct (Range_Contains (timeRange a) (Date b)); simpl.
    + split; [| congruence]. split; [intros _; now left | reflexivity].
    + destruct (Valid (Closed a)); simpl.
      * destruct (time.Equal (Time (Closed a)) (Date b)); simpl.
        -- split; [| congruence]. split; [intros _; now right | reflexivity].
        -- split; [| reflexivity]. split; [discriminate |].
           intros [Hc | [_ Hc]]; discriminate.
      * split; [| reflexivity]. split; [discriminate |].
        intros [Hc | [Hc _]]; discriminate.
Qed.

(** *** Construction *)

Lemma applyOptions_app_fail (pre post : list (Option Range Code))
      (o : Account Range Code -> Account Range Code * option (error Range))
      (a a1 a2 : Account Range Code) (err : error Range) :
  applyOptions pre a = (a1, None) ->
  o a1 = (a2, Some err) ->
  applyOptions (pre ++ Some o :: post) a = (a2, Some err).
Proof.
  revert a. induction pre as [| [p |] pre IH]; intros a Hpre Ho; simpl in *.
  - injection Hpre as ->. now rewrite Ho.
  - destruct (p a) as [a' [e |]]; [discriminate |]. now apply IH.
  - now apply IH.
Qed.

(** C5. Construction is all or nothing.  A name whose trimmed form is empty
    gives the empty-name error and no Account; once the name and the start
    time are accepted, the first option that fails gives its own error and
    no Account, whatever the options before it did; a failing final
    validation gives the validation error and no Account; and in every case
    [New] returns either an Account that passes validation and no error, or an
    error and no Account. *)
Theorem New_all_or_nothing (name_ : string) (code : Code) (opened : time.Time)
        (os : list (Option Range Code)) :
  (String.length (strings.TrimSpace name_) = 0%nat ->
   New name_ code opened os = (None, Some (errorString EmptyNameError))) /\
  (forall tr pre o post a1 a2 err,
      String.length (strings.TrimSpace name_) <> 0%nat ->
      Start opened zeroRange = (tr, None) ->
      os = pre ++ Some o :: post ->
      applyOptions pre (mkAccount (strings.TrimSpace name_) tr code) = (a1, None) ->
      o a1 = (a2, Some err) ->
      New name_ code opened os = (None, Some err)) /\
  (forall tr a err,
      String.length (strings.TrimSpace name_) <> 0%nat ->
      Start opened zeroRange = (tr, None) ->
      applyOptions os (mkAccount (strings.TrimSpace name_) tr code) = (a, None) ->
      validate a = Some err ->
      New name_ code opened os = (None, Some err)) /\
  ((exists a, New name_ code opened os = (Some a, None) /\ validate a = None) \/
   (exists err, New name_ code opened os = (None, Some err))).
Proof.
  unfold New. cbv zeta. repeat split.
  - intros ->. reflexivity.
  - intros tr pre o post a1 a2 err Hname Hstart -> Hpre Ho.
    apply Nat.eqb_neq in Hname. rewrite Hname, Hstart.
    pose proof (applyOptions_app_fail pre post o _ a1 a2 err Hpre Ho) as Hfail.
    unfold Option in Hfail. now rewrite Hfail.
  - intros tr a err Hname Hstart Hos Hval.
    apply Nat.eqb_neq in Hname. now rewrite Hname, Hstart, Hos, Hval.
  - destruct (String.length (strings.TrimSpace name_) =? 0)%nat; [right; eauto |].
    destruct (Start opened zeroRange) as [tr [e |]]; [right; eauto |].
    destruct (applyOptions os _) as [a [e |]]; [right; eauto |].
    destruct (validate a) as [e |] eqn:Hval; [right; eauto |].
    left. eauto.
Qed.

(** *** Equality and openness *)

(** C7. [Equal] holds of two Accounts exactly when their names are the same
    string and their time ranges are Equal; the currency codes play no
    role. *)
Theorem Equal_name_and_timeRange (a b : Account Range Code) :
  (Equal a b = true <->
   name a = name b /\ Range_Equal (timeRange a) (timeRange b) = true) /\
  (forall c c' : Code,
      Equal (mkAccount (name a) (timeRange a) c) (mkAccount (name b) (timeRange b) c')
      = Equal a b).
Proof.
  unfold Equal, Name, TimeRange. split; [| reflexivity].
  destruct (String.eqb (name a) (name b)) eqn:Hname; simpl.
  - apply String.eqb_eq in Hname.
    destruct (Range_Equal (timeRange a) (timeRange b)); simpl.
    + split; [intros _; now split | reflexivity].
    + split; [discriminate | intros [_ Hc]; discriminate].
  - apply String.eqb_neq in Hname.
    split; [discriminate | intros [Hc _]; contradiction].
Qed.

(** C8. [IsOpen] holds exactly when the time range has no close instant
    set; it takes no reference instant. *)
Theorem IsOpen_no_close_instant (a : Account Range Code) :
  IsOpen a = true <-> Valid (Range_End (timeRange a)) = false.
Proof. unfold IsOpen. apply negb_true_iff. Qed.

(** *** JSON *)








(** Accounts made by [New] with [CloseTime] options are [constructed]. *)
Lemma applyOptions_CloseTime (laws : RangeLaws Range) (ts : list time.Time) :
  forall a a' : Account Range Code,
    applyOptions (map CloseTime ts) a = (a', None) ->
    (Valid (Range_Start (timeRange a)) = true -> Valid (Closed a) = true ->
     instant (Opened a) <= instant (Time (Closed a))) ->
    Range_Start (timeRange a') = Range_Start (timeRange a) /\
    (Valid (Range_Start (timeRange a')) = true -> Valid (Closed a') = true ->
     instant (Opened a') <= instant (Time (Closed a'))).
Proof.
  induction ts as [| t ts IH]; intros a a' Hrun Hinv; simpl in Hrun.
  - injection Hrun as <-. now split.
  - destruct (End t (timeRange a)) as [tr [e |]] eqn:Hend; [discriminate |].
    destruct (End_accepted laws t (timeRange a) tr Hend) as [Hs Hle].
    destruct (IH _ a' Hrun) as [Hs' Hinv'].
    + unfold Opened, Closed. simpl. exact Hle.
    + simpl in Hs'. split; [congruence | exact Hinv'].
Qed.

Lemma New_constructed (laws : RangeLaws Range) (name_ : string) (code : Code)
      (opened : time.Time) (ts : list time.Time) (a : Account Range Code) :
  New name_ code opened (map CloseTime ts) = (Some a, None) -> constructed a.
Proof.
  unfold New. cbv zeta.
  destruct (String.length (strings.TrimSpace name_) =? 0)%nat; [discriminate |].
  destruct (Start_fresh laws opened) as (tr & -> & Hs & He).
  destruct (applyOptions (map CloseTime ts) _) as [a1 [e |]] eqn:Hrun; [discriminate |].
  destruct (validate a1) eqn:Hval; [discriminate |].
  intros [= <-].
  destruct (applyOptions_CloseTime laws ts _ a1 Hrun) as [Hs1 Hinv].
  - unfold Closed. simpl. rewrite He. discriminate.
  - simpl in Hs1. unfold constructed. split; [exact Hval |].
    assert (Hv : Valid (Range_Start (timeRange a1)) = true) by now rewrite Hs1, Hs.
    split; [exact Hv | now apply Hinv].
Qed.


End Account.

(** *** FieldError *)

Lemma FieldError_Equal_loop_true (e other : list string) (positions : list nat) :
  FieldError_Equal_loop e other positions = true <->
  (forall i, In i positions -> nth i e "" = nth i other "").
Proof.
  induction positions as [| i rest IH]; simpl.
  - split; [intros _ i [] | reflexivity].
  - destruct (String.eqb (nth i e "") (nth i other "")) eqn:Hi; simpl.
    + apply String.eqb_eq in Hi. rewrite IH. split.
      * intros Hrest j [<- | Hj]; [exact Hi | now apply Hrest].
      * intros Hall j Hj. apply Hall. now right.
    + apply String.eqb_neq in Hi. split; [discriminate |].
      intros Hall. exfalso. apply Hi. apply Hall. now left.
Qed.

(** C9. [Equal] holds of two FieldErrors exactly when they hold the same
    descriptions in the same order, each as many times: when they are the
    same sequence of strings. *)
Theorem FieldError_Equal_same_sequence (e other : list string) :
  FieldError_Equal e other = true <-> e = other.
Proof.
  unfold FieldError_Equal.
  destruct (length e =? length other)%nat eqn:Hlen; simpl.
  - apply Nat.eqb_eq in Hlen. rewrite FieldError_Equal_loop_true. split.
    + intros Hall. apply (nth_ext e other "" "" Hlen).
      intros i Hi. apply Hall. apply in_seq. lia.
    + intros -> i _. reflexivity.
  - apply Nat.eqb_neq in Hlen. split; [discriminate |].
    intros ->. contradiction.
Qed.

End account_facts.

(** ** The model of the collaborators, and the packages run on it *)
Module model_facts.

Import time time_facts gtime currency json balance account model.
Import balance_facts account_facts.

Lemma model_laws : RangeLaws Range.
Proof.
  constructor.
  - intros t. exists (mkRange (mkNullTime true t) (mkNullTime false time.zero)).
    repeat split.
  - intros t [s e] Hs He Hle. simpl in *.
    exists (mkRange s (mkNullTime true t)).
    unfold set_end, Range_validate. simpl. rewrite Hs. simpl.
    assert (Hb : Before t (Time s) = false) by now apply Before_false.
    rewrite Hb. repeat split.
  - intros t [s e] r'. simpl. unfold set_end, Range_validate. simpl.
    destruct (Valid s) eqn:Hs; simpl.
    + destruct (Before t (Time s)) eqn:Hb; [discriminate |].
      intros [= <-]. simpl. split; [reflexivity |].
      intros _ _. now apply Before_false.
    + intros [= <-]. simpl. split; [reflexivity |]. rewrite Hs. discriminate.
  - intros [s e] [s' e'] [Hsv Hst] [Hev Het]. simpl in *.
    unfold equal, NullTime_Equal. simpl. rewrite <- Hsv, <- Hev.
    rewrite !Bool.eqb_reflx. simpl.
    destruct (Valid s); simpl.
    + rewrite (Hst eq_refl). simpl.
      destruct (Valid e); simpl; [now apply Het | reflexivity].
    + destruct (Valid e); simpl; [now apply Het | reflexivity].
Qed.



(** *** The cases of the tests *)

Example Earliest_duplicate_date : @Earliest Range [b10; b20] = (b10, None).
Proof. reflexivity. Qed.

Example Latest_duplicate_date : @Latest Range [b10; b20] = (b20, None).
Proof. reflexivity. Qed.

Example Earliest_various_dates :
  @Earliest Range [mkBalance y2001 1; b10; mkBalance y2000 8237; mkBalance y2002 489]
  = (b10, None).
Proof. reflexivity. Qed.

Example AtTime_before_all :
  @AtTime Range [mkBalance y2000 0] y1000
  = (zeroBalance, Some (errorString ErrNoBalances)).
Proof. reflexivity. Qed.

Example AtTime_on_the_date :
  @AtTime Range [mkBalance y2000 0] y2000 = (mkBalance y2000 0, None).
Proof. reflexivity. Qed.

Example AtTime_duplicate_date : @AtTime Range [b10; b20] y3000 = (b20, None).
Proof. reflexivity. Qed.

Example AtTime_in_the_middle :
  @AtTime Range various y2002 = (mkBalance y2001 10, None).
Proof. reflexivity. Qed.

Example AtTime_after_all :
  @AtTime Range various y2004 = (mkBalance y2003 489, None).
Proof. reflexivity. Qed.

Example New_open : New "Test Account" EUR y2000 [] = (Some openAccount, None).
Proof. reflexivity. Qed.

Example New_closed :
  New " Test Account " EUR y2000 [CloseTime y2002] = (Some closedAccount, None).
Proof. reflexivity. Qed.

Example New_empty_name :
  New "" EUR y2000 [] = (None, Some (errorString EmptyNameError)).
Proof. reflexivity. Qed.

Example New_error_option :
  New "TEST_ACCOUNT" EUR y2000 [errorFn] = (None, Some (errorString "TEST ERROR")).
Proof. reflexivity. Qed.

Example ValidateBalance_open_past :
  ValidateBalance openAccount (mkBalance time.zero 1)
  = Some (DateOutOfAccountTimeRange time.zero (timeRange openAccount)).
Proof. reflexivity. Qed.

Example ValidateBalance_open_start :
  ValidateBalance openAccount (mkBalance y2000 98737879) = None.
Proof. reflexivity. Qed.

Example ValidateBalance_closed_at_close :
  ValidateBalance closedAccount (mkBalance y2002 (-9876)) = None.
Proof. reflexivity. Qed.

Example ValidateBalance_closed_after_close :
  ValidateBalance closedAccount (mkBalance y2003 (-987654))
  = Some (DateOutOfAccountTimeRange y2003 (timeRange closedAccount)).
Proof. reflexivity. Qed.

Example ValidateBalance_invalid_account :
  ValidateBalance zeroAccount (mkBalance y2000 1) = Some (FieldError [EmptyNameError]).
Proof. reflexivity. Qed.

Example IsOpen_zero_account : IsOpen zeroAccount = true.
Proof. reflexivity. Qed.

Example IsOpen_closed_account : IsOpen closedAccount = false.
Proof. reflexivity. Qed.

Example FieldError_Equal_empty_other :
  FieldError_Equal [EmptyNameError] [] = false.
Proof. reflexivity. Qed.

Example FieldError_Equal_duplicates :
  FieldError_Equal [EmptyNameError; EmptyNameError] [EmptyNameError] = false.
Proof. reflexivity. Qed.

(** *** The theorems at the cases of the tests *)

Lemma AtTime_latest_at_or_before_witness :
  (exists b, In b various /\ qualifies y2002 b) /\
  exists k, @AtTime Range various y2002 = (index various k, None) /\
            last_max_at various y2002 k.
Proof.
  assert (Hq : exists b, In b various /\ qualifies y2002 b).
  { exists (mkBalance y2000 8237). split.
    - simpl. tauto.
    - unfold qualifies, date. simpl. lia. }
  split; [exact Hq |].
  exact (proj1 (@AtTime_latest_at_or_before Range various y2002) Hq).
Defined.

Lemma Earliest_first_minimal_witness :
  [b10; b20] <> [] /\
  exists k, @Earliest Range [b10; b20] = (index [b10; b20] k, None) /\
            first_min [b10; b20] k.
Proof.
  assert (Hne : [b10; b20] <> []) by discriminate.
  split; [exact Hne |].
  exact (proj1 (@Earliest_first_minimal Range [b10; b20]) Hne).
Defined.

Lemma Latest_last_maximal_witness :
  [b10; b20] <> [] /\
  exists k, @Latest Range [b10; b20] = (index [b10; b20] k, None) /\
            last_max [b10; b20] k.
Proof.
  assert (Hne : [b10; b20] <> []) by discriminate.
  split; [exact Hne |].
  exact (proj1 (@Latest_last_maximal Range [b10; b20]) Hne).
Defined.

Lemma queries_return_members_witness :
  @AtTime Range various y2002 = (mkBalance y2001 10, None) /\
  In (mkBalance y2001 10) various /\ qualifies y2002 (mkBalance y2001 10).
Proof.
  assert (Hat : @AtTime Range various y2002 = (mkBalance y2001 10, None))
    by reflexivity.
  split; [exact Hat |].
  exact (proj2 (@queries_return_members Range various y2002) _ Hat).
Defined.

Lemma ValidateBalance_account_then_date_witness :
  validate closedAccount = None /\
  ValidateBalance closedAccount (mkBalance y2003 (-987654)) <> None /\
  ValidateBalance closedAccount (mkBalance y2003 (-987654))
  = Some (DateOutOfAccountTimeRange y2003 (timeRange closedAccount)).
Proof.
  assert (Hval : validate closedAccount = None) by reflexivity.
  assert (Hne : ValidateBalance closedAccount (mkBalance y2003 (-987654)) <> None)
    by discriminate.
  split; [exact Hval |]. split; [exact Hne |].
  exact (proj2 (proj2 (ValidateBalance_account_then_date closedAccount
                         (mkBalance y2003 (-987654))) Hval) Hne).
Defined.

Lemma New_all_or_nothing_witness :
  applyOptions [CloseTime y2002]
    (mkAccount (strings.TrimSpace "TEST_ACCOUNT")
       (mkRange (mkNullTime true y2000) (mkNullTime false time.zero)) EUR)
  = (closedAccount_named "TEST_ACCOUNT", None) /\
  New "TEST_ACCOUNT" EUR y2000 [CloseTime y2002; errorFn; CloseTime y2003]
  = (None, Some (errorString "TEST ERROR")).
Proof.
  assert (Hpre : applyOptions [CloseTime y2002]
                   (mkAccount (strings.TrimSpace "TEST_ACCOUNT")
                      (mkRange (mkNullTime true y2000) (mkNullTime false time.zero)) EUR)
                 = (closedAccount_named "TEST_ACCOUNT", None)) by reflexivity.
  split; [exact Hpre |].
  refine (proj1 (proj2 (New_all_or_nothing "TEST_ACCOUNT" EUR y2000
                          [CloseTime y2002; errorFn; CloseTime y2003]))
                (mkRange (mkNullTime true y2000) (mkNullTime false time.zero))
                [CloseTime y2002]
                (fun a => (a, Some (errorString "TEST ERROR")))
                [CloseTime y2003]
                (closedAccount_named "TEST_ACCOUNT")
                (closedAccount_named "TEST_ACCOUNT")
                (errorString "TEST ERROR") _ _ _ Hpre _).
  - discriminate.
  - reflexivity.
  - reflexivity.
  - reflexivity.
Defined.




End model_facts.

(** * Further properties *)

Module balance_more.

Import time time_facts balance balance_facts.

(** ** Sum *)

Lemma wrap_int_fits (z : Z) : json.is_int z = true -> wrap_int z = z.
Proof.
  unfold json.is_int, wrap_int, json.minInt, json.maxInt.
  change (2 ^ 63) with 9223372036854775808.
  change (2 ^ 64) with 18446744073709551616.
  intros Hz. apply andb_true_iff in Hz. destruct Hz as [Hlo Hhi].
  apply Z.leb_le in Hlo, Hhi. rewrite Z.mod_small; lia.
Qed.

Lemma wrap_int_is_int (z : Z) : json.is_int (wrap_int z) = true.
Proof.
  unfold json.is_int, wrap_int, json.minInt, json.maxInt.
  change (2 ^ 63) with 9223372036854775808.
  change (2 ^ 64) with 18446744073709551616.
  match goal with
  | |- context [?a mod ?m] => pose proof (Z.mod_pos_bound a m ltac:(lia)) as Hb
  end.
  apply andb_true_iff. split; apply Z.leb_le; lia.
Qed.

Lemma wrap_int_add_l (a b : Z) : wrap_int (wrap_int a + b) = wrap_int (a + b).
Proof.
  unfold wrap_int. f_equal.
  replace ((a - json.minInt) mod 2 ^ 64 + json.minInt + b - json.minInt)
    with ((a - json.minInt) mod 2 ^ 64 + b) by lia.
  rewrite Zplus_mod_idemp_l. f_equal. lia.
Qed.

Lemma wrap_int_add_r (a b : Z) : wrap_int (a + wrap_int b) = wrap_int (a + b).
Proof. rewrite Z.add_comm, wrap_int_add_l. f_equal. lia. Qed.

Lemma Sum_loop_total (bs : Balances) :
  forall s, fold_left Sum_step bs (wrap_int s) = wrap_int (s + total bs).
Proof.
  induction bs as [| b bs IH]; intros s; cbn [fold_left].
  - unfold total. cbn [map fold_right]. now rewrite Z.add_0_r.
  - unfold Sum_step at 2. rewrite wrap_int_add_l, IH.
    unfold total. cbn [map fold_right]. now rewrite Z.add_assoc.
Qed.

Lemma Sum_wraps_total (bs : Balances) : Sum bs = wrap_int (total bs).
Proof.
  unfold Sum. change 0 with (wrap_int 0) at 1. now rewrite Sum_loop_total.
Qed.

Lemma total_app (xs ys : Balances) : total (xs ++ ys) = total xs + total ys.
Proof.
  unfold total. induction xs as [| x xs IH]; simpl; [reflexivity | rewrite IH; lia].
Qed.

Lemma total_Permutation (bs bs' : Balances) :
  Permutation bs bs' -> total bs = total bs'.
Proof.
  unfold total. induction 1; simpl; lia.
Qed.

(** X1. [Sum] of no Balances is 0; [Sum] is the sum of the amounts wrapped
    to a Go int, so it is that sum itself whenever the sum fits in an int,
    whatever the running sums did on the way. *)
Theorem Sum_is_total_when_it_fits (bs : Balances) :
  Sum [] = 0 /\
  Sum bs = wrap_int (total bs) /\
  json.is_int (Sum bs) = true /\
  (json.is_int (total bs) = true -> Sum bs = total bs).
Proof.
  split; [reflexivity |]. split; [apply Sum_wraps_total |].
  split; [rewrite Sum_wraps_total; apply wrap_int_is_int |].
  intros Hfit. rewrite Sum_wraps_total. now apply wrap_int_fits.
Qed.

(** X2. [Sum] does not depend on the order of the Balances, and the [Sum] of
    two collections put together is the wrapped sum of their [Sum]s. *)
Theorem Sum_order_and_append (xs ys : Balances) :
  (Permutation xs ys -> Sum xs = Sum ys) /\
  Sum (xs ++ ys) = wrap_int (Sum xs + Sum ys).
Proof.
  split.
  - intros Hperm. rewrite !Sum_wraps_total. f_equal. now apply total_Permutation.
  - rewrite !Sum_wraps_total, total_app, wrap_int_add_l, wrap_int_add_r. reflexivity.
Qed.

(** ** Equal *)

(** X3. [Equal] on Balances is an equivalence: reflexive, symmetric and
    transitive. *)
Theorem Balance_Equal_equivalence (b c d : Balance) :
  Balance_Equal b b = true /\
  (Balance_Equal b c = true -> Balance_Equal c b = true) /\
  (Balance_Equal b c = true -> Balance_Equal c d = true -> Balance_Equal b d = true).
Proof.
  unfold Balance_Equal. repeat split.
  - rewrite Z.eqb_refl, Equal_refl. reflexivity.
  - intros Hbc. apply andb_true_iff in Hbc. destruct Hbc as [Ha Ht].
    apply Z.eqb_eq in Ha. apply Equal_eq in Ht.
    apply andb_true_iff. split; [apply Z.eqb_eq | apply Equal_eq]; congruence.
  - intros Hbc Hcd. apply andb_true_iff in Hbc, Hcd.
    destruct Hbc as [Ha Ht], Hcd as [Ha' Ht'].
    apply Z.eqb_eq in Ha, Ha'. apply Equal_eq in Ht, Ht'.
    apply andb_true_iff. split; [apply Z.eqb_eq | apply Equal_eq]; congruence.
Qed.

(** ** New *)

Lemma last_cons_default (l : list Z) :
  forall x d d', last (x :: l) d = last (x :: l) d'.
Proof.
  induction l as [| y l IH]; intros x d d'; [reflexivity |].
  change (last (y :: l) d = last (y :: l) d'). apply IH.
Qed.

Lemma New_loop_Amounts {R : Type} (amounts : list Z) :
  forall bb : Balance,
    @New_loop R (map AmountOption amounts) bb
    = returns (mkBalance (Date bb) (last amounts (Amount bb)), None).
Proof.
  induction amounts as [| a amounts IH]; intros bb.
  - simpl. now destruct bb.
  - cbn [map New_loop AmountOption]. rewrite IH. simpl Date. simpl Amount.
    destruct amounts as [| a' amounts']; [reflexivity |].
    do 3 f_equal. change (last (a :: a' :: amounts') (Amount bb))
      with (last (a' :: amounts') (Amount bb)).
    apply last_cons_default.
Qed.

(** X4. [New] with Amount options never fails: it gives the Balance with the
    date asked for and the amount of the last option, 0 when there is
    none. *)
Theorem New_with_Amounts {R : Type} (date_ : Time) (amounts : list Z) :
  @New R date_ (map AmountOption amounts)
  = returns (Some (mkBalance date_ (last amounts 0)), None).
Proof. unfold New. now rewrite New_loop_Amounts. Qed.

Lemma New_loop_app {R : Type} (pre : list (@Option R)) :
  forall (rest : list (@Option R)) (bb b1 : Balance),
    New_loop pre bb = returns (b1, None) ->
    New_loop (pre ++ rest) bb = New_loop rest b1.
Proof.
  induction pre as [| [o |] pre IH]; intros rest bb b1 Hpre; simpl in *.
  - now injection Hpre as <-.
  - destruct (o bb) as [bb' [e |]]; [discriminate | now apply IH].
  - discriminate.
Qed.

(** X5. [New] is all or nothing: once the options before it have run without
    error, an option that fails gives its own error and no Balance, and a nil
    option makes the call panic; whenever [New] returns, it returns either a
    Balance and no error or an error and no Balance. *)
Theorem New_option_fails_or_is_nil {R : Type} (date_ : Time) (options : list (@Option R)) :
  (forall pre o post b1 b2 err,
      options = pre ++ Some o :: post ->
      New_loop pre (mkBalance date_ 0) = returns (b1, None) ->
      o b1 = (b2, Some err) ->
      New date_ options = returns (None, Some err)) /\
  (forall pre post b1,
      options = pre ++ None :: post ->
      New_loop pre (mkBalance date_ 0) = returns (b1, None) ->
      New date_ options = panics) /\
  (New date_ options = panics \/
   (exists b, New date_ options = returns (Some b, None)) \/
   (exists err, New date_ options = returns (None, Some err))).
Proof.
  unfold New. repeat split.
  - intros pre o post b1 b2 err -> Hpre Ho.
    rewrite (New_loop_app pre _ _ b1 Hpre). simpl. now rewrite Ho.
  - intros pre post b1 -> Hpre.
    now rewrite (New_loop_app pre _ _ b1 Hpre).
  - destruct (New_loop options (mkBalance date_ 0)) as [[bb [e |]] |]; eauto.
Qed.

(** ** How the queries relate *)

Lemma first_min_unique (bs : Balances) (k k' : nat) :
  first_min bs k -> first_min bs k' -> k = k'.
Proof.
  intros (Hk & Hmin & Hfirst) (Hk' & Hmin' & Hfirst').
  destruct (Nat.lt_trichotomy k k') as [Hlt | [Heq | Hgt]]; [| exact Heq |].
  - specialize (Hfirst' k Hlt). specialize (Hmin k' Hk'). lia.
  - specialize (Hfirst k' Hgt). specialize (Hmin' k Hk). lia.
Qed.

Lemma last_max_unique (bs : Balances) (k k' : nat) :
  last_max bs k -> last_max bs k' -> k = k'.
Proof.
  intros (Hk & Hmax & Hlast) (Hk' & Hmax' & Hlast').
  destruct (Nat.lt_trichotomy k k') as [Hlt | [Heq | Hgt]]; [| exact Heq |].
  - specialize (Hlast k' (conj Hlt Hk')). specialize (Hmax' k Hk). lia.
  - specialize (Hlast' k (conj Hgt Hk)). specialize (Hmax k' Hk'). lia.
Qed.

Lemma Earliest_minimal {R : Type} (bs : Balances) :
  bs <> [] ->
  In (fst (@Earliest R bs)) bs /\ snd (@Earliest R bs) = None /\
  forall b, In b bs -> date (fst (@Earliest R bs)) <= date b.
Proof.
  intros Hne. destruct bs as [| b0 tl]; [contradiction |].
  destruct (@Earliest_index R b0 tl) as (k & -> & Hk & Hmin & _).
  cbn [fst snd]. split; [now apply index_In |]. split; [reflexivity |].
  intros b Hb. destruct (In_index _ b Hb) as (j & Hj & <-). now apply Hmin.
Qed.

Lemma Latest_maximal {R : Type} (bs : Balances) :
  bs <> [] ->
  In (fst (@Latest R bs)) bs /\ snd (@Latest R bs) = None /\
  forall b, In b bs -> date b <= date (fst (@Latest R bs)).
Proof.
  intros Hne. destruct bs as [| b0 tl]; [contradiction |].
  destruct (@Latest_index R b0 tl) as (k & -> & Hk & Hmax & _).
  cbn [fst snd]. split; [now apply index_In |]. split; [reflexivity |].
  intros b Hb. destruct (In_index _ b Hb) as (j & Hj & <-). now apply Hmax.
Qed.

Lemma AtTime_maximal {R : Type} (bs : Balances) (t : Time) (b : Balance) :
  @AtTime R bs t = (b, None) ->
  In b bs /\ qualifies t b /\
  forall b', In b' bs -> qualifies t b' -> date b' <= date b.
Proof.
  intros Hat. pose proof (AtTime_loop_inv bs t) as Hinv.
  unfold AtTime in Hat. destruct (AtTime_loop bs t) as [k |]; [| discriminate].
  injection Hat as <-. destruct Hinv as (Hk & Hq & Hmax & _).
  split; [now apply index_In |]. split; [exact Hq |].
  intros b' Hb' Hq'. destruct (In_index _ b' Hb') as (j & Hj & <-). now apply Hmax.
Qed.

Lemma AtTime_cases {R : Type} (bs : Balances) (t : Time) :
  (exists b, @AtTime R bs t = (b, None) /\ In b bs /\ qualifies t b /\
             forall b', In b' bs -> qualifies t b' -> date b' <= date b) \/
  (@AtTime R bs t = (zeroBalance, Some (errorString ErrNoBalances)) /\
   forall b, In b bs -> ~ qualifies t b).
Proof.
  destruct (@AtTime R bs t) as [b [e |]] eqn:Hat.
  - right. pose proof (AtTime_loop_inv bs t) as Hinv.
    unfold AtTime in Hat. destruct (AtTime_loop bs t) as [k |]; [discriminate |].
    split; [now rewrite <- Hat |].
    intros x Hx. destruct (In_index _ x Hx) as (j & Hj & <-). now apply Hinv.
  - left. exists b. split; [reflexivity |]. now apply (AtTime_maximal bs t b Hat).
Qed.

(** X6. When no Balance is dated after [t], [AtTime bs t] is [Latest bs]:
    the same Balance, tie-break included. *)
Theorem AtTime_is_Latest_when_all_qualify {R : Type} (bs : Balances) (t : Time) :
  bs <> [] ->
  (forall b, In b bs -> qualifies t b) ->
  @AtTime R bs t = @Latest R bs.
Proof.
  intros Hne Hall. destruct bs as [| b0 tl]; [contradiction |].
  destruct (@Latest_index R b0 tl) as (k & -> & Hk).
  destruct (@AtTime_found R (b0 :: tl) t) as (k' & -> & Hk').
  { exists b0. split; [now left | apply Hall; now left]. }
  assert (Hlm : last_max (b0 :: tl) k').
  { destruct Hk' as (Hlt & _ & Hmax & Hlast). repeat split.
    - exact Hlt.
    - intros j Hj. apply Hmax; [exact Hj |]. apply Hall. now apply index_In.
    - intros j Hj. apply Hlast; [exact Hj |]. apply Hall. apply index_In. lia. }
  now rewrite (last_max_unique _ k k' Hk Hlm).
Qed.

(** X7. [AtTime bs t] fails exactly when there is no Balance or [t] is before
    the date of [Earliest bs]. *)
Theorem AtTime_fails_before_Earliest {R : Type} (bs : Balances) (t : Time) :
  snd (@AtTime R bs t) <> None <->
  bs = [] \/ instant t < date (fst (@Earliest R bs)).
Proof.
  destruct bs as [| b0 tl].
  - split; [intros _; now left | intros _; discriminate].
  - destruct (@Earliest_minimal R (b0 :: tl)) as (Hin & _ & Hmin); [discriminate |].
    split.
    + intros Hfail. right.
      destruct (Z_lt_le_dec (instant t) (date (fst (@Earliest R (b0 :: tl)))))
        as [Hlt | Hle]; [exact Hlt |].
      exfalso. apply Hfail.
      destruct (@AtTime_found R (b0 :: tl) t) as (k & -> & _); [| reflexivity].
      exists (fst (@Earliest R (b0 :: tl))). split; [exact Hin | exact Hle].
    + intros [Hnil | Hlt]; [discriminate |].
      rewrite (@AtTime_none R (b0 :: tl) t); [discriminate |].
      intros b Hb Hq. specialize (Hmin b Hb). unfold qualifies in Hq. lia.
Qed.

(** X8. [AtTime] grows with the instant: when it finds a Balance at [t], it
    finds one at every later [t'], dated no earlier. *)
Theorem AtTime_monotone {R : Type} (bs : Balances) (t t' : Time) (b : Balance) :
  @AtTime R bs t = (b, None) ->
  instant t <= instant t' ->
  exists b', @AtTime R bs t' = (b', None) /\ date b <= date b'.
Proof.
  intros Hat Hle. destruct (AtTime_maximal bs t b Hat) as (Hin & Hq & _).
  assert (Hq' : qualifies t' b) by (unfold qualifies in *; lia).
  destruct (@AtTime_found R bs t') as (k & Hat' & Hk); [now exists b |].
  exists (index bs k). split; [exact Hat' |].
  destruct Hk as (_ & _ & Hmax & _).
  destruct (In_index _ b Hin) as (j & Hj & <-). now apply Hmax.
Qed.

(** X9. The date of [Earliest] is never after the date of [Latest], and a
    Balance [AtTime] finds is dated between the two. *)
Theorem queries_ordered {R : Type} (bs : Balances) (t : Time) :
  (bs <> [] -> date (fst (@Earliest R bs)) <= date (fst (@Latest R bs))) /\
  (forall b, @AtTime R bs t = (b, None) ->
             date (fst (@Earliest R bs)) <= date b <= date (fst (@Latest R bs))).
Proof.
  split.
  - intros Hne. destruct (@Earliest_minimal R bs Hne) as (_ & _ & Hmin).
    destruct (@Latest_maximal R bs Hne) as (Hin & _). now apply Hmin.
  - intros b Hat. destruct (AtTime_maximal bs t b Hat) as (Hin & _).
    assert (Hne : bs <> []) by (intros ->; contradiction).
    destruct (@Earliest_minimal R bs Hne) as (_ & _ & Hmin).
    destruct (@Latest_maximal R bs Hne) as (_ & _ & Hmax).
    split; [now apply Hmin | now apply Hmax].
Qed.

(** X10. The order of the Balances decides ties only: in a collection put in
    another order, [Earliest], [Latest] and [AtTime] succeed or fail alike
    and return Balances of the same dates. *)
Theorem queries_dates_order_independent {R : Type} (bs bs' : Balances) (t : Time) :
  Permutation bs bs' ->
  (snd (@Earliest R bs) = snd (@Earliest R bs') /\
   date (fst (@Earliest R bs)) = date (fst (@Earliest R bs'))) /\
  (snd (@Latest R bs) = snd (@Latest R bs') /\
   date (fst (@Latest R bs)) = date (fst (@Latest R bs'))) /\
  (snd (@AtTime R bs t) = snd (@AtTime R bs' t) /\
   date (fst (@AtTime R bs t)) = date (fst (@AtTime R bs' t))).
Proof.
  intros Hperm.
  assert (Hsym : Permutation bs' bs) by now apply Permutation_sym.
  assert (Hempty : bs = [] <-> bs' = []).
  { split; intros ->.
    - now apply Permutation_nil.
    - now apply Permutation_nil. }
  destruct bs as [| b0 tl].
  - rewrite (proj1 Hempty eq_refl). repeat split.
  - assert (Hne : b0 :: tl <> []) by discriminate.
    assert (Hne' : bs' <> []) by (intros Hc; apply Hempty in Hc; discriminate).
    repeat split.
    + destruct (@Earliest_minimal R _ Hne) as (_ & -> & _).
      now destruct (@Earliest_minimal R _ Hne') as (_ & -> & _).
    + destruct (@Earliest_minimal R _ Hne) as (Hin & _ & Hmin).
      destruct (@Earliest_minimal R _ Hne') as (Hin' & _ & Hmin').
      apply Z.le_antisymm.
      * apply Hmin. now apply (Permutation_in _ Hsym).
      * apply Hmin'. now apply (Permutation_in _ Hperm).
    + destruct (@Latest_maximal R _ Hne) as (_ & -> & _).
      now destruct (@Latest_maximal R _ Hne') as (_ & -> & _).
    + destruct (@Latest_maximal R _ Hne) as (Hin & _ & Hmax).
      destruct (@Latest_maximal R _ Hne') as (Hin' & _ & Hmax').
      apply Z.le_antisymm.
      * apply Hmax'. now apply (Permutation_in _ Hperm).
      * apply Hmax. now apply (Permutation_in _ Hsym).
    + destruct (@AtTime_cases R (b0 :: tl) t) as [(b & Hat & Hin & Hq & Hmax) | [Hat Hno]];
        destruct (@AtTime_cases R bs' t) as [(b' & Hat' & Hin' & Hq' & Hmax') | [Hat' Hno']];
        rewrite Hat, Hat'; cbn [snd]; try reflexivity; exfalso.
      * apply (Hno' b); [now apply (Permutation_in _ Hperm) | exact Hq].
      * apply (Hno b'); [now apply (Permutation_in _ Hsym) | exact Hq'].
    + destruct (@AtTime_cases R (b0 :: tl) t) as [(b & Hat & Hin & Hq & Hmax) | [Hat Hno]];
        destruct (@AtTime_cases R bs' t) as [(b' & Hat' & Hin' & Hq' & Hmax') | [Hat' Hno']];
        rewrite Hat, Hat'; cbn [fst]; try reflexivity.
      * apply Z.le_antisymm.
        -- apply Hmax'; [now apply (Permutation_in _ Hperm) | exact Hq].
        -- apply Hmax; [now apply (Permutation_in _ Hsym) | exact Hq'].
      * exfalso. apply (Hno' b); [now apply (Permutation_in _ Hperm) | exact Hq].
      * exfalso. apply (Hno b'); [now apply (Permutation_in _ Hsym) | exact Hq'].
Qed.

(** ** The earlier Earliest and Latest *)

Lemma first_min_tail (s : Balance) (bs : Balances) (k : nat) :
  first_min (s :: bs) (S k) -> first_min bs k.
Proof.
  intros (Hk & Hmin & Hfirst). simpl in Hk. repeat split.
  - lia.
  - intros j Hj. apply (Hmin (S j)). simpl. lia.
  - intros j Hj. apply (Hfirst (S j)). lia.
Qed.

Lemma last_max_tail (s : Balance) (bs : Balances) (k : nat) :
  last_max (s :: bs) (S k) -> last_max bs k.
Proof.
  intros (Hk & Hmax & Hlast). simpl in Hk. repeat split.
  - lia.
  - intros j Hj. apply (Hmax (S j)). simpl. lia.
  - intros j Hj. apply (Hlast (S j)). simpl. lia.
Qed.

(** X11. The earlier [Earliest], which starts from a Balance dated in the
    year 2000000, returns what [Earliest] returns as soon as one Balance is
    dated before that; when none is, it returns the Balance it started from,
    which need not be in the collection.  For no Balances it fails. *)
Theorem Earliest_earlier_far_date {R : Type} (bs : Balances) :
  (bs <> [] ->
   (exists b, In b bs /\ date b < instant year2000000) ->
   @Earliest_earlier R bs = @Earliest R bs) /\
  (bs <> [] ->
   (forall b, In b bs -> instant year2000000 <= date b) ->
   @Earliest_earlier R bs = (mkBalance year2000000 0, None)) /\
  @Earliest_earlier R [] = (zeroBalance, Some (errorString ErrEmptyBalancesMessage_earlier)).
Proof.
  split; [| split; [| reflexivity]].
  - intros Hne (b & Hb & Hlt). destruct bs as [| b0 tl]; [contradiction |].
    unfold Earliest_earlier.
    destruct (Earliest_loop (b0 :: tl) [mkBalance year2000000 0] 0%nat
                (first_min_singleton _)) as (k' & Hfold & Hk').
    change (index [mkBalance year2000000 0] 0) with (mkBalance year2000000 0) in Hfold.
    rewrite Hfold. simpl app in *.
    destruct k' as [| k''].
    + exfalso. destruct Hk' as (_ & Hmin & _).
      destruct (In_index _ b Hb) as (j & Hj & Hjb).
      specialize (Hmin (S j)). simpl length in Hmin, Hj.
      specialize (Hmin ltac:(lia)).
      change (index (mkBalance year2000000 0 :: b0 :: tl) (S j))
        with (index (b0 :: tl) j) in Hmin.
      rewrite Hjb in Hmin. unfold date in Hmin, Hlt. simpl in Hmin, Hlt. lia.
    + apply first_min_tail in Hk'.
      destruct (@Earliest_index R b0 tl) as (k & -> & Hk).
      now rewrite (first_min_unique _ k k'' Hk Hk').
  - intros Hne Hall. destruct bs as [| b0 tl]; [contradiction |].
    unfold Earliest_earlier.
    destruct (Earliest_loop (b0 :: tl) [mkBalance year2000000 0] 0%nat
                (first_min_singleton _)) as (k' & Hfold & Hk').
    change (index [mkBalance year2000000 0] 0) with (mkBalance year2000000 0) in Hfold.
    rewrite Hfold. simpl app in *.
    destruct k' as [| k'']; [reflexivity |].
    exfalso. destruct Hk' as (Hlen & _ & Hfirst).
    specialize (Hfirst 0%nat ltac:(lia)).
    change (index (mkBalance year2000000 0 :: b0 :: tl) (S k''))
      with (index (b0 :: tl) k'') in Hfirst.
    assert (Hin : In (index (b0 :: tl) k'') (b0 :: tl)).
    { apply index_In. simpl in Hlen. simpl. lia. }
    specialize (Hall _ Hin). unfold date in Hfirst, Hall. simpl in Hfirst, Hall. lia.
Qed.

(** X12. The earlier [Latest], which starts from a Balance dated in the
    year 0, returns what [Latest] returns as soon as one Balance is dated at
    or after that; when none is, it returns the Balance it started from,
    which need not be in the collection.  For no Balances it fails. *)
Theorem Latest_earlier_far_date {R : Type} (bs : Balances) :
  (bs <> [] ->
   (exists b, In b bs /\ instant year0 <= date b) ->
   @Latest_earlier R bs = @Latest R bs) /\
  (bs <> [] ->
   (forall b, In b bs -> date b < instant year0) ->
   @Latest_earlier R bs = (mkBalance year0 0, None)) /\
  @Latest_earlier R [] = (zeroBalance, Some (errorString ErrEmptyBalancesMessage_earlier)).
Proof.
  split; [| split; [| reflexivity]].
  - intros Hne (b & Hb & Hle). destruct bs as [| b0 tl]; [contradiction |].
    unfold Latest_earlier.
    destruct (Latest_loop (b0 :: tl) [mkBalance year0 0] 0%nat
                (last_max_singleton _)) as (k' & Hfold & Hk').
    change (index [mkBalance year0 0] 0) with (mkBalance year0 0) in Hfold.
    rewrite Hfold. simpl app in *.
    destruct k' as [| k''].
    + exfalso. destruct Hk' as (_ & _ & Hlast).
      destruct (In_index _ b Hb) as (j & Hj & Hjb).
      specialize (Hlast (S j)). simpl length in Hlast, Hj.
      specialize (Hlast ltac:(lia)).
      change (index (mkBalance year0 0 :: b0 :: tl) (S j))
        with (index (b0 :: tl) j) in Hlast.
      rewrite Hjb in Hlast. unfold date in Hlast, Hle. simpl in Hlast, Hle. lia.
    + apply last_max_tail in Hk'.
      destruct (@Latest_index R b0 tl) as (k & -> & Hk).
      now rewrite (last_max_unique _ k k'' Hk Hk').
  - intros Hne Hall. destruct bs as [| b0 tl]; [contradiction |].
    unfold Latest_earlier.
    destruct (Latest_loop (b0 :: tl) [mkBalance year0 0] 0%nat
                (last_max_singleton _)) as (k' & Hfold & Hk').
    change (index [mkBalance year0 0] 0) with (mkBalance year0 0) in Hfold.
    rewrite Hfold. simpl app in *.
    destruct k' as [| k'']; [reflexivity |].
    exfalso. destruct Hk' as (Hlen & Hmax & _).
    specialize (Hmax 0%nat ltac:(simpl; lia)).
    change (index (mkBalance year0 0 :: b0 :: tl) (S k''))
      with (index (b0 :: tl) k'') in Hmax.
    assert (Hin : In (index (b0 :: tl) k'') (b0 :: tl)).
    { apply index_In. simpl in Hlen. simpl. lia. }
    specialize (Hall _ Hin). unfold date in Hmax, Hall. simpl in Hmax, Hall. lia.
Qed.

End balance_more.

Module account_more.

Import time time_facts gtime currency balance json account.
Import account_facts.

(** ** FieldError.Error *)

Lemma append_empty_r (s : string) : (s ++ "")%string = s.
Proof. induction s as [| c s IH]; simpl; [reflexivity | now rewrite IH]. Qed.

Lemma append_assoc (s t u : string) : ((s ++ t) ++ u = s ++ (t ++ u))%string.
Proof. induction s as [| c s IH]; simpl; [reflexivity | now rewrite IH]. Qed.

Lemma FieldError_Error_loop (e : list string) (l : list string) :
  forall (s : nat) (buffer : string),
    (s + length l = length e)%nat ->
    fold_left (FieldError_Error_step e) (combine (seq s (length l)) l) buffer
    = (buffer ++ String.concat " " l)%string.
Proof.
  induction l as [| x l IH]; intros s buffer Hlen.
  - simpl. now rewrite append_empty_r.
  - cbn [length seq combine fold_left].
    destruct l as [| y l'].
    + simpl. unfold FieldError_Error_step.
      simpl in Hlen.
      destruct (Z.of_nat s <? Z.of_nat (length e) - 1) eqn:Hcmp.
      * apply Z.ltb_lt in Hcmp. lia.
      * reflexivity.
    + rewrite IH by (simpl in *; lia).
      unfold FieldError_Error_step at 1.
      destruct (Z.of_nat s <? Z.of_nat (length e) - 1) eqn:Hcmp.
      * change (String.concat " " (x :: y :: l'))
          with (x ++ " " ++ String.concat " " (y :: l'))%string.
        now rewrite !append_assoc.
      * apply Z.ltb_ge in Hcmp. simpl in Hlen. lia.
Qed.

(** X13. The message of a FieldError is "FieldError: " followed by its
    descriptions in order, one space between two of them and none after the
    last. *)
Theorem FieldError_Error_joins (e : list string) :
  FieldError_Error e = ("FieldError: " ++ String.concat " " e)%string.
Proof. unfold FieldError_Error. now apply FieldError_Error_loop. Qed.

Section Account.

Context {Range Code : Type} `{RangeOps Range} `{CodeOps Code Range}.
Context `{TimeJSON} `{NullTimeJSON}.

(** ** New and its options *)

Lemma applyOptions_skips_nil (os : list (Option Range Code)) :
  forall a : Account Range Code,
    applyOptions (filter (fun o : Option Range Code =>
                          match o with Some _ => true | None => false end) os) a
    = applyOptions os a.
Proof.
  induction os as [| [o |] os IH]; intros a; simpl.
  - reflexivity.
  - destruct (o a) as [a' [e |]]; [reflexivity | apply IH].
  - apply IH.
Qed.

(** X14. Nil options count for nothing: [New] gives the same with them as
    with the list they are taken out of, wherever they stand. *)
Theorem New_skips_nil_options (name_ : string) (code : Code) (opened : time.Time)
        (os : list (Option Range Code)) :
  New name_ code opened (filter (fun o : Option Range Code =>
                          match o with Some _ => true | None => false end) os)
  = New name_ code opened os.
Proof.
  unfold New. cbv zeta.
  destruct (String.length (strings.TrimSpace name_) =? 0)%nat; [reflexivity |].
  destruct (Start opened zeroRange) as [tr [e |]]; [reflexivity |].
  pose proof (applyOptions_skips_nil os (mkAccount (strings.TrimSpace name_) tr code))
    as Hskip.
  unfold Option in Hskip |- *. now rewrite Hskip.
Qed.

(** X15. Under the contract of the time range, what [New] is given is what
    the Account gives back: the trimmed name, the currency code and the
    start instant, open when no close time is set; with a [CloseTime] not
    before the start, the Account is closed at that instant, and a Balance
    dated at that instant is valid for it. *)
Theorem New_then_accessors (laws : RangeLaws Range) (name_ : string) (code : Code)
        (opened t : time.Time) :
  String.length (strings.TrimSpace name_) <> 0%nat ->
  (exists a,
      New name_ code opened [] = (Some a, None) /\
      Name a = strings.TrimSpace name_ /\ CurrencyCode a = code /\
      Opened a = opened /\ IsOpen a = true) /\
  (instant opened <= instant t ->
   exists a,
     New name_ code opened [CloseTime t] = (Some a, None) /\
     Name a = strings.TrimSpace name_ /\ CurrencyCode a = code /\
     Opened a = opened /\ Closed a = mkNullTime true t /\ IsOpen a = false /\
     forall amount, ValidateBalance a (mkBalance t amount) = None).
Proof.
  intros Hname.
  assert (Hn : (String.length (strings.TrimSpace name_) =? 0)%nat = false)
    by now apply Nat.eqb_neq.
  destruct (Start_fresh laws opened) as (tr & Hstart & Hs & He).
  split.
  - exists (mkAccount (strings.TrimSpace name_) tr code).
    unfold New. cbv zeta. rewrite Hn, Hstart. simpl.
    unfold validate. simpl. rewrite Hn. simpl.
    repeat split.
    + unfold Opened. simpl. now rewrite Hs.
    + unfold IsOpen. simpl. now rewrite He.
  - intros Hle.
    destruct (End_after_start laws t tr) as (tr' & Hend & Hs' & He').
    + now rewrite Hs.
    + exact He.
    + now rewrite Hs.
    + exists (mkAccount (strings.TrimSpace name_) tr' code).
      unfold New. cbv zeta. rewrite Hn, Hstart. simpl. rewrite Hend.
      unfold validate. simpl. rewrite Hn. simpl.
      repeat split.
      * unfold Opened. simpl. now rewrite Hs', Hs.
      * unfold Closed. simpl. exact He'.
      * unfold IsOpen. simpl. now rewrite He'.
      * intros amount. unfold ValidateBalance, validate, Closed. simpl.
        rewrite Hn, He'. simpl. rewrite Equal_refl. simpl.
        now rewrite andb_false_r.
Qed.

Lemma applyOptions_CloseTime_name (ts : list time.Time) :
  forall a a' : Account Range Code,
    applyOptions (map CloseTime ts) a = (a', None) -> name a' = name a.
Proof.
  induction ts as [| t ts IH]; intros a a' Hrun; simpl in Hrun.
  - now injection Hrun as <-.
  - destruct (End t (timeRange a)) as [tr [e |]]; [discriminate |].
    now rewrite (IH _ _ Hrun).
Qed.

(** X18. For a name with no white space around it and [CloseTime] options,
    the earlier [New] gives what [New] gives.  They part on a name that is
    empty once trimmed: without options, the earlier [New] then returns the
    Account with the name as given together with the FieldError, where [New]
    returns no Account. *)
Theorem New_earlier_and_New (name_ : string) (code : Code) (opened : time.Time)
        (ts : list time.Time) :
  (strings.TrimSpace name_ = name_ -> name_ <> "" ->
   New_earlier name_ code opened (map CloseTime ts)
   = New name_ code opened (map CloseTime ts)) /\
  (forall tr,
      String.length (strings.TrimSpace name_) = 0%nat ->
      Start opened zeroRange = (tr, None) ->
      New_earlier name_ code opened []
      = (Some (mkAccount name_ tr code), Some (FieldError [EmptyNameError])) /\
      New name_ code opened [] = (None, Some (errorString EmptyNameError))).
Proof.
  split.
  - intros Htrim Hne. unfold New_earlier, New. cbv zeta. rewrite Htrim.
    assert (Hlen : (String.length name_ =? 0)%nat = false).
    { apply Nat.eqb_neq. intros Hz. apply Hne. now destruct name_. }
    rewrite Hlen.
    destruct (Start opened zeroRange) as [tr [e |]]; [reflexivity |].
    destruct (applyOptions (map CloseTime ts) _) as [a [e |]] eqn:Hrun;
      [reflexivity |].
    pose proof (applyOptions_CloseTime_name ts _ a Hrun) as Hname.
    simpl in Hname.
    unfold validate_earlier, validate. rewrite Hname, Htrim, Hlen. reflexivity.
  - intros tr Hempty Hstart. unfold New_earlier, New. cbv zeta.
    rewrite Hstart, Hempty. simpl. unfold validate_earlier. simpl.
    now rewrite Hempty.
Qed.

(** ** UnmarshalJSON *)


(** X16. Under the contract of the time range, an Account [UnmarshalJSON]
    leaves without error is as construction leaves one: its name is not
    empty, it has a start instant and no close instant before the start.
    The function of the package returns such an Account and no error, or no
    Account and the error.  (A null document is left out.) *)
Theorem UnmarshalJSON_gives_constructed (laws : RangeLaws Range)
        (a0 : Account Range Code) (zeroCode : Code) (data : Value) :
  data <> JNull ->
  (forall a, UnmarshalJSON a0 data = (a, None) -> constructed a) /\
  (forall a, UnmarshalJSON_data zeroCode data = (Some a, None) -> constructed a) /\
  ((exists a, UnmarshalJSON_data zeroCode data = (Some a, None)) \/
   (exists err, UnmarshalJSON_data zeroCode data = (None, Some err))).
Proof.
  intros _.
  assert (Hmethod : forall r a, UnmarshalJSON r data = (a, None) -> constructed a).
  { intros r a. unfold UnmarshalJSON.
    destruct (unmarshal_aux data zeroAux) as [aux | msg]; [| discriminate].
    destruct (NewCode (aux_Currency aux)) as [c | err]; [| discriminate].
    cbv zeta. cbn [name timeRange currencyCode].
    destruct (Start_fresh laws (aux_Opened aux)) as (tr & -> & Hs & He).
    destruct (Valid (aux_Closed aux)).
    - destruct (End (Time (aux_Closed aux)) tr) as [tr' [e |]] eqn:Hend;
        [discriminate |].
      intros [= <- Hval].
      destruct (End_accepted laws _ _ _ Hend) as [Hs' Hle].
      unfold constructed, Opened, Closed. cbn [timeRange].
      assert (Hv : Valid (Range_Start tr') = true) by now rewrite Hs', Hs.
      split; [exact Hval |]. split; [exact Hv | now apply Hle].
    - intros [= <- Hval].
      unfold constructed, Opened, Closed. cbn [timeRange].
      split; [exact Hval |]. split; [now rewrite Hs |].
      rewrite He. discriminate. }
  split; [apply Hmethod |]. split.
  - intros a. unfold UnmarshalJSON_data.
    destruct (UnmarshalJSON _ data) as [a' [e |]] eqn:Hrun; [discriminate |].
    intros [= <-]. now apply (Hmethod _ _ Hrun).
  - unfold UnmarshalJSON_data.
    destruct (UnmarshalJSON _ data) as [a' [e |]]; [right | left]; eauto.
Qed.


End Account.

End account_more.

Module model_more.

Import time time_facts gtime currency json balance account model.
Import balance_facts account_facts balance_more account_more.

Lemma Sum_is_total_when_it_fits_witness :
  is_int (total various) = true /\ Sum various = total various.
Proof.
  assert (Hfit : is_int (total various) = true) by reflexivity.
  split; [exact Hfit |].
  exact (proj2 (proj2 (proj2 (Sum_is_total_when_it_fits various))) Hfit).
Defined.

Lemma Sum_order_and_append_witness :
  Permutation [b10; b20] [b20; b10] /\ Sum [b10; b20] = Sum [b20; b10].
Proof.
  assert (Hperm : Permutation [b10; b20] [b20; b10]) by apply perm_swap.
  split; [exact Hperm |].
  exact (proj1 (Sum_order_and_append [b10; b20] [b20; b10]) Hperm).
Defined.

Lemma Balance_Equal_equivalence_witness :
  Balance_Equal b10 (mkBalance y2000_east 10) = true /\
  Balance_Equal (mkBalance y2000_east 10) b10 = true.
Proof.
  assert (Heq : Balance_Equal b10 (mkBalance y2000_east 10) = true) by reflexivity.
  split; [exact Heq |].
  exact (proj1 (proj2 (Balance_Equal_equivalence b10 (mkBalance y2000_east 10) b10)) Heq).
Defined.

Lemma New_option_fails_or_is_nil_witness :
  @New_loop Range [AmountOption 5] (mkBalance y2000 0) = returns (mkBalance y2000 5, None) /\
  balance.New y2000 [AmountOption 5; failing; AmountOption 7]
  = returns (None, Some (errorString "TEST ERROR")).
Proof.
  assert (Hpre : @New_loop Range [AmountOption 5] (mkBalance y2000 0)
                 = returns (mkBalance y2000 5, None)) by reflexivity.
  split; [exact Hpre |].
  exact (proj1 (New_option_fails_or_is_nil y2000 [AmountOption 5; failing; AmountOption 7])
               [AmountOption 5]
               (fun b => (b, Some (errorString "TEST ERROR")))
               [AmountOption 7]
               (mkBalance y2000 5) (mkBalance y2000 5) (errorString "TEST ERROR")
               eq_refl Hpre eq_refl).
Defined.

Lemma various_all_before_2004 : forall b, In b various -> qualifies y2004 b.
Proof.
  intros b Hb. unfold qualifies, date. simpl in Hb.
  destruct Hb as [<- | [<- | [<- | [<- | []]]]]; simpl; lia.
Qed.

Lemma AtTime_is_Latest_when_all_qualify_witness :
  various <> [] /\ @AtTime Range various y2004 = @Latest Range various.
Proof.
  assert (Hne : various <> []) by discriminate.
  split; [exact Hne |].
  exact (AtTime_is_Latest_when_all_qualify various y2004 Hne various_all_before_2004).
Defined.

Lemma AtTime_monotone_witness :
  @AtTime Range various y2002 = (mkBalance y2001 10, None) /\
  instant y2002 <= instant y2004 /\
  exists b', @AtTime Range various y2004 = (b', None) /\
             date (mkBalance y2001 10) <= date b'.
Proof.
  assert (Hat : @AtTime Range various y2002 = (mkBalance y2001 10, None)) by reflexivity.
  assert (Hle : instant y2002 <= instant y2004) by (simpl; lia).
  split; [exact Hat |]. split; [exact Hle |].
  exact (AtTime_monotone various y2002 y2004 (mkBalance y2001 10) Hat Hle).
Defined.

Lemma queries_ordered_witness :
  @AtTime Range various y2002 = (mkBalance y2001 10, None) /\
  date (fst (@Earliest Range various)) <= date (mkBalance y2001 10)
  <= date (fst (@Latest Range various)).
Proof.
  assert (Hat : @AtTime Range various y2002 = (mkBalance y2001 10, None)) by reflexivity.
  split; [exact Hat |].
  exact (proj2 (@queries_ordered Range various y2002) _ Hat).
Defined.

Lemma queries_dates_order_independent_witness :
  Permutation [b10; b20] [b20; b10] /\
  date (fst (@Earliest Range [b10; b20])) = date (fst (@Earliest Range [b20; b10])) /\
  fst (@Earliest Range [b10; b20]) <> fst (@Earliest Range [b20; b10]).
Proof.
  assert (Hperm : Permutation [b10; b20] [b20; b10]) by apply perm_swap.
  split; [exact Hperm |].
  split; [| discriminate].
  exact (proj2 (proj1 (@queries_dates_order_independent Range _ _ y2002 Hperm))).
Defined.

Lemma b10_before_2000000 : exists b, In b [b10; b20] /\ date b < instant year2000000.
Proof. exists b10. split; [now left | unfold date; simpl; lia]. Qed.

Lemma Earliest_earlier_far_date_witness :
  [b10; b20] <> [] /\ @Earliest_earlier Range [b10; b20] = @Earliest Range [b10; b20].
Proof.
  assert (Hne : [b10; b20] <> []) by discriminate.
  split; [exact Hne |].
  exact (proj1 (@Earliest_earlier_far_date Range [b10; b20]) Hne b10_before_2000000).
Defined.

Lemma b10_after_0 : exists b, In b [b10; b20] /\ instant year0 <= date b.
Proof. exists b10. split; [now left | unfold date; simpl; lia]. Qed.

Lemma Latest_earlier_far_date_witness :
  [b10; b20] <> [] /\ @Latest_earlier Range [b10; b20] = @Latest Range [b10; b20].
Proof.
  assert (Hne : [b10; b20] <> []) by discriminate.
  split; [exact Hne |].
  exact (proj1 (@Latest_earlier_far_date Range [b10; b20]) Hne b10_after_0).
Defined.

Lemma New_then_accessors_witness :
  String.length (strings.TrimSpace " Test Account ") <> 0%nat /\
  instant y2000 <= instant y2002 /\
  exists a,
    New " Test Account " EUR y2000 [CloseTime y2002] = (Some a, None) /\
    Name a = strings.TrimSpace " Test Account " /\ CurrencyCode a = EUR /\
    Opened a = y2000 /\ Closed a = mkNullTime true y2002 /\ IsOpen a = false /\
    forall amount, ValidateBalance a (mkBalance y2002 amount) = None.
Proof.
  assert (Hname : String.length (strings.TrimSpace " Test Account ") <> 0%nat)
    by discriminate.
  assert (Hle : instant y2000 <= instant y2002) by (simpl; lia).
  split; [exact Hname |]. split; [exact Hle |].
  exact (proj2 (New_then_accessors model_facts.model_laws " Test Account " EUR y2000 y2002 Hname) Hle).
Defined.

Lemma UnmarshalJSON_gives_constructed_witness :
  closedAccount_JSON <> JNull /\
  UnmarshalJSON zeroAccount closedAccount_JSON = (closedAccount, None) /\
  constructed closedAccount.
Proof.
  assert (Hdoc : closedAccount_JSON <> JNull) by discriminate.
  assert (Hrun : UnmarshalJSON zeroAccount closedAccount_JSON = (closedAccount, None))
    by reflexivity.
  split; [exact Hdoc |]. split; [exact Hrun |].
  exact (proj1 (UnmarshalJSON_gives_constructed model_facts.model_laws zeroAccount EUR
                  closedAccount_JSON Hdoc) closedAccount Hrun).
Defined.


Lemma New_earlier_and_New_witness :
  strings.TrimSpace "TEST_ACCOUNT" = "TEST_ACCOUNT" /\
  "TEST_ACCOUNT" <> "" /\
  New_earlier "TEST_ACCOUNT" EUR y2000 (map CloseTime [y2002])
  = New "TEST_ACCOUNT" EUR y2000 (map CloseTime [y2002]).
Proof.
  assert (Htrim : strings.TrimSpace "TEST_ACCOUNT" = "TEST_ACCOUNT") by reflexivity.
  assert (Hne : "TEST_ACCOUNT" <> "") by discriminate.
  split; [exact Htrim |]. split; [exact Hne |].
  exact (proj1 (New_earlier_and_New "TEST_ACCOUNT" EUR y2000 [y2002]) Htrim Hne).
Defined.

(** *** More cases of the tests *)

Example Sum_of_the_tests :
  Sum [mkBalance y2000 1; mkBalance y2000 2; mkBalance y2000 (-3)] = 0.
Proof. reflexivity. Qed.

Example Sum_wraps_around : Sum [mkBalance y2000 maxInt; mkBalance y2000 1] = minInt.
Proof. reflexivity. Qed.

Example New_without_options :
  @balance.New Range y2000 [] = returns (Some (mkBalance y2000 0), None).
Proof. reflexivity. Qed.

Example balance_New_error_option :
  balance.New y2000 [failing] = returns (None, Some (errorString "TEST ERROR")).
Proof. reflexivity. Qed.

Example New_nil_option : @balance.New Range y2000 [None] = panics.
Proof. reflexivity. Qed.

Example FieldError_Error_one :
  FieldError_Error [EmptyNameError] = "FieldError: Empty name.".
Proof. reflexivity. Qed.

Example New_earlier_empty_name :
  New_earlier "" EUR y2000 []
  = (Some (mkAccount "" (timeRange openAccount) EUR),
     Some (FieldError [EmptyNameError])).
Proof. reflexivity. Qed.

End model_more.
